(** * PatchCL-MedSeg: the semi-supervised training pipeline of [main-flod.py]

    A shallow embedding of the training loop ([train]), the validation
    routine ([validate]), the contrastive-weight schedule
    ([get_dynamic_weight]), the checkpoint reload ([load_pretrained_model])
    and the stage orchestrator ([main]).

    Number model.  Python floats and the entries of tensors are modelled by
    exact rationals ([Q]); a decimal literal of the source denotes the
    rational it spells.  Rounding, overflow and NaN are outside the model.
    Python integers are [Z]; [//] and [%] are [Z.div] and [Z.modulo], which
    round towards minus infinity as Python does.

    External code.  The network, the loss functions, the optimizer and the
    metric classes are not part of the program; what they compute is taken
    from an [Oracle], on which no assumption is made. *)

From Stdlib Require Import ZArith QArith Qabs Qpower Qround Lia Lqa DecimalString.
From stdpp Require Import gmap strings list sorting.

(** ** Exceptions *)

Inductive PyError : Type :=
| ZeroDivisionError
| NameError (name : string)
| UnboundLocalError (name : string)
| TypeError (what : string)
| ValueError (what : string)
| FileNotFoundError (path : string).

Inductive Exn (A : Type) : Type :=
| Ok (a : A)
| Raise (e : PyError).
Arguments Ok {A} a.
Arguments Raise {A} e.

#[global] Instance Exn_ret : MRet Exn := fun A a => Ok a.
#[global] Instance Exn_bind : MBind Exn := fun A B f m =>
  match m with
  | Ok a => f a
  | Raise e => Raise e
  end.

(** A Python [for] loop whose body updates a state and may raise. *)
Fixpoint for_each {A S : Type} (body : S -> A -> Exn S) (s : S) (items : list A)
  : Exn S :=
  match items with
  | [] => Ok s
  | x :: rest => s' ← body s x; for_each body s' rest
  end.

(** ** Numbers and text *)

(** [x / y] on numbers: true division, [ZeroDivisionError] on a zero divisor. *)
Definition py_truediv (x y : Q) : Exn Q :=
  if Qeq_bool y 0 then Raise ZeroDivisionError else Ok (x / y)%Q.

(** [a % b] on integers. *)
Definition py_mod (a b : Z) : Exn Z :=
  if (b =? 0)%Z then Raise ZeroDivisionError else Ok (a mod b)%Z.

(** [str(n)] / [f"{n}"] for an integer. *)
Definition str (n : Z) : string := NilZero.string_of_int (Z.to_int n).

(** [range(start, stop)]. *)
Definition range (start stop : Z) : list Z := seqZ start (stop - start).

Definition nl : string := String (Ascii.ascii_of_nat 10) EmptyString.

(** ** The contrastive-weight schedule (lines 90-102) *)

Definition get_dynamic_weight (epoch end_epochs : Z) : Exn Q :=
  let interval := 10%Z in
  let start_weight := 0.1%Q in
  let max_weight := 1.0%Q in
  let num_intervals := (end_epochs / interval)%Z in
  weight_increment ← py_truediv (max_weight - start_weight) (inject_Z num_intervals);
  if (epoch <? interval)%Z then Ok start_weight
  else Ok (start_weight + inject_Z (epoch / interval) * weight_increment)%Q.

(** The schedule in the words of the specification, for [end_epochs = 100]:
    0.1 below epoch 10, then [0.1 + (epoch // 10) * increment] with
    [increment = (1.0 - 0.1) / 10]. *)
Definition schedule_increment : Q := ((1.0 - 0.1) / 10)%Q.

Definition schedule_spec (epoch : Z) : Q :=
  if (epoch <? 10)%Z then 0.1%Q
  else (0.1 + inject_Z (epoch / 10) * schedule_increment)%Q.

(** Lines 178-184: the weight of the contrastive term, by stage name. *)
Definition select_PatchCL_weight (step_name : string) (ContrastiveWeights : Q)
    (c_epochs end_epochs : Z) : Exn Q :=
  if String.eqb step_name "supervised-Pretraining" then
    if Qeq_bool ContrastiveWeights 0.0 then get_dynamic_weight c_epochs end_epochs
    else Ok ContrastiveWeights
  else Ok 0.5%Q.

(** ** Datasets and loaders *)

(** A sample is identified by the split file it comes from and its line. *)
Inductive Sample : Type :=
| Labeled (i : nat)
| Unlabeled (i : nat).

#[global] Instance Sample_eq_dec : EqDecision Sample.
Proof. solve_decision. Defined.

Abbreviation Batch := (list Sample).

(** [PascalVOCDataset(txt_file, ...)]: one sample per line of the file. *)
Definition PascalVOCDataset (labeled : bool) (lines : nat) : list Sample :=
  (if labeled then Labeled else Unlabeled) <$> seq 0 lines.

Fixpoint batches (n b : nat) (samples : list Sample) : list Batch :=
  match n with
  | O => []
  | S n' => take b samples :: batches n' b (drop b samples)
  end.

(** [DataLoader(dataset, batch_size=b, drop_last=True)] (torch): the batches
    of one pass, [len(dataset) // b] of them, each of [b] samples; the last
    incomplete batch is dropped.  The samples come in the order given: with a
    sampler or [shuffle=True] torch draws a fresh order for each pass, which
    the model does not distinguish. *)
Definition DataLoader (dataset : list Sample) (batch_size : Z) : Exn (list Batch) :=
  if (batch_size <=? 0)%Z
  then Raise (ValueError "batch_size should be a positive integer value")
  else
    let b := Z.to_nat batch_size in
    Ok (batches (length dataset / b) b dataset).

(** ** Models, files and the outside world *)

(** A network object.  [ident] is the identity of the Python object (two
    names may be bound to one object; [torch.load] makes a new one);
    [params] stands for [parameters()], one rational per parameter entry;
    [contrast] is the attribute [module.contrast] and [training] the mode set
    by [train()] / [eval()]. *)
Record Model : Type := {
  ident : nat;
  params : list Q;
  requires_grad : bool;
  contrast : bool;
  training : bool
}.

Definition set_ident (i : nat) (m : Model) : Model :=
  {| ident := i; params := params m; requires_grad := requires_grad m;
     contrast := contrast m; training := training m |}.
Definition set_params (p : list Q) (m : Model) : Model :=
  {| ident := ident m; params := p; requires_grad := requires_grad m;
     contrast := contrast m; training := training m |}.
Definition set_requires_grad (b : bool) (m : Model) : Model :=
  {| ident := ident m; params := params m; requires_grad := b;
     contrast := contrast m; training := training m |}.
Definition set_contrast (b : bool) (m : Model) : Model :=
  {| ident := ident m; params := params m; requires_grad := requires_grad m;
     contrast := b; training := training m |}.
Definition set_training (b : bool) (m : Model) : Model :=
  {| ident := ident m; params := params m; requires_grad := requires_grad m;
     contrast := contrast m; training := b |}.

(** An optimizer holds the parameter tensors of the model it was constructed
    over ([torch.optim.Adam(model.parameters(), ...)]). *)
Record Optimizer : Type := { opt_params_of : nat }.

(** The three metric values (mIoU, accuracy, Dice) of [utils_performance]. *)
Abbreviation Metrics := (Q * Q * Q)%type.

(** One row of the loss log, with the values [train] passes to [save_loss]
    (there formatted to four decimals). *)
Record Row : Type := {
  t_total_loss : Q;
  t_supervised_loss : Q;
  t_contrastive_loss : Q;
  t_metrics : Metrics;
  v_total_loss : Q;
  v_metrics : Metrics;
  row_PatchCL_weight : Q
}.

Inductive Role : Type := Student | Teacher.

(** What a run does, in order: lines printed, files written and read, and
    the calls of [train], of the selector and of the labeller. *)
Inductive Event : Type :=
| EvPrint (line : string)
| EvSaveLoss (filename : string)
| EvTorchSave (path : string)
| EvTorchLoad (path : string)
| EvTrain (step_name : string)
| EvSelectReliable (seen : list Sample)
| EvLabel (seen : list Sample).

#[global] Instance Event_eq_dec : EqDecision Event.
Proof. solve_decision. Defined.

(** The file system under [output/] (checkpoints and loss logs), the
    allocator of object identities and the trace of events. *)
Record World : Type := {
  ckpts : gmap string Model;
  csvs : gmap string (list Row);
  next_ident : nat;
  trace : list Event
}.

(** Computations that act on the world and may raise; what was written
    before an exception stays written. *)
Definition M (A : Type) : Type := World -> Exn A * World.

#[global] Instance M_ret : MRet M := fun A a w => (Ok a, w).
#[global] Instance M_bind : MBind M := fun A B f m w =>
  match m w with
  | (Ok a, w') => f a w'
  | (Raise e, w') => (Raise e, w')
  end.

Definition raise {A : Type} (e : PyError) : M A := fun w => (Raise e, w).
Definition lift {A : Type} (c : Exn A) : M A := fun w => (c, w).

Definition emit (ev : Event) : M unit := fun w =>
  (Ok tt, {| ckpts := ckpts w; csvs := csvs w; next_ident := next_ident w;
             trace := trace w ++ [ev] |}).

Definition print (line : string) : M unit := emit (EvPrint line).

(** The lines printed so far. *)
Definition stdout (w : World) : list string :=
  omap (fun ev => match ev with EvPrint line => Some line | _ => None end) (trace w).

Fixpoint for_eachM {A S : Type} (body : S -> A -> M S) (s : S) (items : list A)
  : M S :=
  match items with
  | [] => mret s
  | x :: rest => s' ← body s x; for_eachM body s' rest
  end.

(** [torch.save(model, path)] after [os.makedirs(..., exist_ok=True)]: the
    whole model object is written, replacing a file of that name. *)
Definition torch_save (model : Model) (path : string) : M unit := fun w =>
  (Ok tt, {| ckpts := <[path := model]> (ckpts w); csvs := csvs w;
             next_ident := next_ident w;
             trace := trace w ++ [EvTorchSave path] |}).

(** [torch.load(path)]: a new object with the saved content. *)
Definition torch_load (path : string) : M Model := fun w =>
  match ckpts w !! path with
  | Some m =>
      (Ok (set_ident (next_ident w) m),
       {| ckpts := ckpts w; csvs := csvs w; next_ident := S (next_ident w);
          trace := trace w ++ [EvTorchLoad path] |})
  | None => (Raise (FileNotFoundError path), w)
  end.

(** Modelled from the spec: [utils.loss_file.save_loss] is not under src/.
    Section 6: the loss log is one CSV file per (patch size, contrastive
    weight, stage, fold), one row per epoch; a call appends its row to the
    file it names. *)
Definition save_loss (row : Row) (filename : string) : M unit := fun w =>
  (Ok tt, {| ckpts := ckpts w;
             csvs := <[filename := default [] (csvs w !! filename) ++ [row]]> (csvs w);
             next_ident := next_ident w;
             trace := trace w ++ [EvSaveLoss filename] |}).

(** The rows of a loss log. *)
Definition rows (w : World) (filename : string) : list Row :=
  default [] (csvs w !! filename).

(** ** External computations *)

(** What the code outside the program computes.  [Hidden] is the state the
    program never reads: the embedding queues, the optimizer's moments, batch
    normalisation statistics, random number generators. *)
Record Oracle (Hidden : Type) : Type := {
  (** [Network(num_classes, embedding_size)]: the initial parameters. *)
  init_params : nat -> list Q;
  (** [simple_PCGJCL(...)] after patch extraction, augmentation, embedding of
      student and teacher and the enqueue: the value of [PCGJCL_loss]. *)
  PCGJCL_item : Hidden -> Model -> Model -> Batch -> Q;
  (** [criterion(model(imgs), masks)]: the value of the supervised loss. *)
  supervised_item : Hidden -> Model -> Batch -> Q;
  (** The parameters [optimizer.step()] leaves, after [loss.backward()]. *)
  stepped_params : Hidden -> Model -> Batch -> Q -> list Q;
  (** The hidden state after one training step. *)
  next_hidden : Hidden -> Model -> Model -> Batch -> Hidden;
  (** [evaluate()] of the three metric accumulators over the batches seen. *)
  metrics_of : Hidden -> Model -> list Batch -> Metrics;
  (** [f"{x}"] of the parsed [--ContrastiveWeights] value. *)
  str_weight : Q -> string;
  (** The order [KFold(shuffle=True)] draws. *)
  kfold_shuffle : list nat -> list nat;
  (** The per-image score of the reliable-sample selector, and how many of
      [n] ranked images it calls reliable. *)
  reliability : Model -> Model -> Sample -> Q;
  reliable_quota : nat -> nat
}.
Arguments init_params {Hidden} _ _.
Arguments PCGJCL_item {Hidden} _ _ _ _ _.
Arguments supervised_item {Hidden} _ _ _ _.
Arguments stepped_params {Hidden} _ _ _ _ _.
Arguments next_hidden {Hidden} _ _ _ _ _.
Arguments metrics_of {Hidden} _ _ _ _.
Arguments str_weight {Hidden} _ _.
Arguments kfold_shuffle {Hidden} _ _.
Arguments reliability {Hidden} _ _ _ _.
Arguments reliable_quota {Hidden} _ _.

(** ** The teacher update (lines 199-200) *)

(** [0.001 * param_stud + 0.999 * param_teach] for one parameter entry. *)
Definition ema (param_stud param_teach : Q) : Q :=
  (0.001 * param_stud + 0.999 * param_teach)%Q.

(** The loop over [zip(model.parameters(), teacher_model.parameters())] with
    [param_teach.data.copy_(...)]: the teacher's parameters are overwritten in
    place, pair by pair; [zip] stops at the shorter list and the teacher's
    further parameters stay as they are. *)
Fixpoint ema_update (stud teach : list Q) : list Q :=
  match stud, teach with
  | param_stud :: stud', param_teach :: teach' =>
      ema param_stud param_teach :: ema_update stud' teach'
  | _, _ => teach
  end.

(** ** The training loop *)

(** A call of a network, with the value of its [contrast] flag at the call. *)
Inductive Call : Type :=
| get_embeddings_call (who : Role) (contrast_flag : bool)
| forward_call (who : Role) (contrast_flag : bool).

Section Training.
Context {Hidden : Type} (O : Oracle Hidden).

(** The objects and local variables a training step reads and writes:
    [model], [teacher_model], the per-epoch sums, and [PatchCL_weight], which
    is unbound until the first step has run. *)
Record TrainEnv : Type := {
  student : Model;
  teacher : Model;
  hidden : Hidden;
  epoch_t_loss : Q;
  total_t_supervised_loss : Q;
  total_t_contrastive_loss : Q;
  PatchCL_weight : option Q;
  calls : list Call
}.

(** [optimizer.step()] seen from one model: its parameters move when the
    optimizer holds them, they require a gradient and the backward pass
    reached them ([tracked]: [get_embeddings] is called with gradient
    tracking on for the student, line 156, and off for the teacher,
    line 160). *)
Definition optimizer_step (optimizer : Optimizer) (h : Hidden) (batch : Batch)
    (loss : Q) (tracked : bool) (m : Model) : Model :=
  if (opt_params_of optimizer =? ident m)%nat && requires_grad m && tracked
  then set_params (stepped_params O h m batch loss) m
  else m.

(** Lines 140-200: one pass of the batch loop. *)
Definition train_step (optimizer : Optimizer) (step_name : string)
    (ContrastiveWeights : Q) (c_epochs end_epochs : Z)
    (env : TrainEnv) (batch : Batch) : Exn TrainEnv :=
  (* 154-156 *)
  let model := set_contrast true (set_training true (student env)) in
  let calls1 := calls env ++ [get_embeddings_call Student (contrast model)] in
  (* 158-160 *)
  let teacher_model := set_contrast true (set_training true (teacher env)) in
  let calls2 := calls1 ++ [get_embeddings_call Teacher (contrast teacher_model)] in
  (* 162-164 *)
  let PCGJCL_loss := PCGJCL_item O (hidden env) model teacher_model batch in
  (* 167-169 *)
  let model := set_contrast false model in
  let calls3 := calls2 ++ [forward_call Student (contrast model)] in
  let supervised_loss := supervised_item O (hidden env) model batch in
  (* 178-186 *)
  weight ← select_PatchCL_weight step_name ContrastiveWeights c_epochs end_epochs;
  let loss := (supervised_loss + weight * PCGJCL_loss)%Q in
  (* 193-197 *)
  let model := optimizer_step optimizer (hidden env) batch loss true model in
  let teacher_model :=
    optimizer_step optimizer (hidden env) batch loss false teacher_model in
  (* 199-200 *)
  let teacher_model :=
    set_params (ema_update (params model) (params teacher_model)) teacher_model in
  Ok {| student := model;
        teacher := teacher_model;
        hidden := next_hidden O (hidden env) model teacher_model batch;
        epoch_t_loss := (epoch_t_loss env + loss)%Q;
        total_t_supervised_loss := (total_t_supervised_loss env + supervised_loss)%Q;
        total_t_contrastive_loss := (total_t_contrastive_loss env + PCGJCL_loss)%Q;
        PatchCL_weight := Some weight;
        calls := calls3 |}.

(** Lines 59-88.  [imgs.size(0)] is the number of samples of the batch. *)
Definition validate (h : Hidden) (model : Model) (val_loader : list Batch)
  : Exn (Model * (Q * Metrics)) :=
  let model := set_contrast false (set_training false model) in
  let sums :=
    foldl (fun acc imgs =>
             let size0 := Z.of_nat (length imgs) in
             ((acc.1 + supervised_item O h model imgs * inject_Z size0)%Q,
              (acc.2 + size0)%Z))
          (0%Q, 0%Z) val_loader in
  val_loss ← py_truediv sums.1 (inject_Z sums.2);
  Ok (model, (val_loss, metrics_of O h model val_loader)).

(** Lines 129-235: the body of the epoch loop, for epoch number [c_epochs]
    (already incremented). *)
Definition train_epoch (train_loader val_loader : list Batch)
    (optimizer : Optimizer) (end_epochs : Z) (step_name : string)
    (ContrastiveWeights : Q) (fold save_interval : Z)
    (save_loss_model_path save_loss_path : string)
    (env : TrainEnv) (c_epochs : Z) : M TrainEnv :=
  (* 131-133 *)
  let env :=
    {| student := student env; teacher := teacher env; hidden := hidden env;
       epoch_t_loss := 0; total_t_supervised_loss := 0;
       total_t_contrastive_loss := 0;
       PatchCL_weight := PatchCL_weight env; calls := calls env |} in
  (* 139-202 *)
  env ← lift (for_each (train_step optimizer step_name ContrastiveWeights
                          c_epochs end_epochs) env train_loader);
  (* 204-210 *)
  let n := inject_Z (Z.of_nat (length train_loader)) in
  avg_t_epoch_loss ← lift (py_truediv (epoch_t_loss env) n);
  avg_t_supervised_loss ← lift (py_truediv (total_t_supervised_loss env) n);
  avg_t_contrastive_loss ← lift (py_truediv (total_t_contrastive_loss env) n);
  let avg_t := metrics_of O (hidden env) (student env) train_loader in
  (* 213 *)
  vr ← lift (validate (hidden env) (student env) val_loader);
  let model := vr.1 in
  (* 215-230 *)
  weight ← match PatchCL_weight env with
           | Some weight => mret weight
           | None => raise (UnboundLocalError "PatchCL_weight")
           end;
  _ ← save_loss
        {| t_total_loss := avg_t_epoch_loss;
           t_supervised_loss := avg_t_supervised_loss;
           t_contrastive_loss := avg_t_contrastive_loss;
           t_metrics := avg_t;
           v_total_loss := vr.2.1;
           v_metrics := vr.2.2;
           row_PatchCL_weight := weight |}
        (save_loss_path +:+ "_" +:+ step_name +:+ "-fold" +:+ str fold +:+ ".csv");
  (* 232-235 *)
  r ← lift (py_mod c_epochs save_interval);
  _ ← (if (r =? 0)%Z
       then torch_save model
              (save_loss_model_path +:+ "/fold/" +:+ str fold +:+ "/model_"
                 +:+ step_name +:+ "_" +:+ str c_epochs +:+ "-s.pth")
       else mret tt);
  mret {| student := model; teacher := teacher env; hidden := hidden env;
          epoch_t_loss := epoch_t_loss env;
          total_t_supervised_loss := total_t_supervised_loss env;
          total_t_contrastive_loss := total_t_contrastive_loss env;
          PatchCL_weight := PatchCL_weight env; calls := calls env |}.

(** Lines 104-237.  The arguments [criterion], [dev], [num_classes],
    [img_size], [batch_size], [patch_size] and [embedding_size] only reach
    external code and are part of the oracle.  The hidden state is passed in
    and out. *)
Definition train (model teacher_model : Model)
    (train_loader val_loader : list Batch) (optimizer : Optimizer)
    (start_epochs end_epochs : Z) (step_name : string)
    (ContrastiveWeights : Q) (fold save_interval : Z)
    (save_loss_model_path save_loss_path : string) (h : Hidden)
  : M (Model * Model * Hidden) :=
  _ ← emit (EvTrain step_name);
  let env :=
    {| student := model; teacher := teacher_model; hidden := h;
       epoch_t_loss := 0; total_t_supervised_loss := 0;
       total_t_contrastive_loss := 0; PatchCL_weight := None; calls := [] |} in
  env ← for_eachM
          (train_epoch train_loader val_loader optimizer end_epochs step_name
             ContrastiveWeights fold save_interval save_loss_model_path
             save_loss_path)
          env ((fun c_epochs => c_epochs + 1)%Z <$> range start_epochs end_epochs);
  mret (student env, teacher env, hidden env).

End Training.

(** ** Reloading checkpoints (lines 239-251) *)

Definition load_pretrained_model (model teacher_model : Model)
    (save_model_path : string) (epoch : Z) : M (Model * Model) :=
  let model_path := save_model_path +:+ str epoch +:+ "-s.pth" in
  let teacher_model_path := save_model_path +:+ str (epoch - 10) +:+ "-s.pth" in
  _ ← print ("model_path:  " +:+ model_path);
  _ ← print ("teacher_model_path:  " +:+ teacher_model_path);
  _ ← print "";
  model ← torch_load model_path;
  teacher_model ← torch_load teacher_model_path;
  mret (set_training false model, set_training false teacher_model).

(** ** Reliable-sample selection and pseudo-labels *)

#[global] Instance Qle_dec : RelDecision Qle.
Proof. intros x y. destruct (Qlt_le_dec y x); [right | left]; auto using Qlt_not_le. Defined.

(** The order of the ranking: [a] before [b] when [a] scores at least as
    high. *)
Definition ranks_before (score : Sample -> Q) (a b : Sample) : Prop :=
  (score b <= score a)%Q.

#[global] Instance ranks_before_dec (score : Sample -> Q)
  : RelDecision (ranks_before score).
Proof. intros a b. unfold ranks_before. apply _. Defined.

Section Selection.
Context {Hidden : Type} (O : Oracle Hidden).

(** The images a selector or labeller run over a loader gets to see. *)
Definition seen_by (loader : list Batch) : list Sample := concat loader.

(** Modelled from the spec: [utils.select_reliable.select_reliable] is not
    under src/.  Section 4.6: it takes the two models and an unlabeled-data
    loader, runs both models on each image, computes a score per image, ranks
    the images and splits them into a reliable subset (high confidence) and a
    remaining subset (low confidence).  The images are those the loader
    yields; how many of the ranked images count as reliable is the oracle's
    [reliable_quota]. *)
Definition select_reliable (model teacher_model : Model) (loader : list Batch)
  : M (list Sample * list Sample) :=
  let images := seen_by loader in
  let ranked :=
    merge_sort (ranks_before (reliability O model teacher_model)) images in
  let r := reliable_quota O (length ranked) in
  _ ← emit (EvSelectReliable images);
  mret (take r ranked, drop r ranked).

(** Modelled from the spec: [utils.select_reliable.Label] is not under src/.
    Section 4.7: it takes a model and a loader over the remaining set and
    gives a dataset in which each image of the loader is paired with the
    model's prediction as its mask.  A sample keeps its identity; masks are
    not part of the model. *)
Definition Label (model : Model) (loader : list Batch) : M (list Sample) :=
  _ ← emit (EvLabel (seen_by loader));
  mret (seen_by loader).

End Selection.

(** ** Cross-validation folds *)

(** The sizes of the folds of [KFold(n_splits)] over [n_samples] samples:
    the first [n_samples % n_splits] folds hold one sample more. *)
Definition fold_sizes (n_samples n_splits : nat) : list nat :=
  (fun i => if (i <? n_samples mod n_splits)%nat
            then S (n_samples / n_splits) else (n_samples / n_splits)%nat)
    <$> seq 0 n_splits.

Fixpoint test_folds (sizes : list nat) (indices : list nat) : list (list nat) :=
  match sizes with
  | [] => []
  | size :: sizes' => take size indices :: test_folds sizes' (drop size indices)
  end.

(** [KFold(n_splits, shuffle=True).split(dataset)] (scikit-learn): for each
    fold the indices outside it and the indices inside it, both ascending. *)
Definition KFold_split (shuffle : list nat -> list nat) (n_splits n_samples : nat)
  : Exn (list (list nat * list nat)) :=
  if (n_samples <? n_splits)%nat
  then Raise (ValueError "Cannot have number of splits greater than the number of samples")
  else
    let indices := seq 0 n_samples in
    Ok ((fun test =>
           (filter (fun i => i ∉ test) indices, filter (fun i => i ∈ test) indices))
          <$> test_folds (fold_sizes n_samples n_splits) (shuffle indices)).

(** [enumerate]. *)
Definition enumerate {A : Type} (items : list A) : list (Z * A) :=
  zip (seqZ 0 (Z.of_nat (length items))) items.

(** ** Names *)

(** The names bound at module level in [main-flod.py]: the imports, the two
    module variables and the functions. *)
Definition module_globals : list string :=
  [ "os"; "sys"; "torch"; "nn"; "smp"; "math"; "time"; "DataLoader";
    "random_split"; "TensorDataset"; "ConcatDataset"; "SubsetRandomSampler";
    "np"; "Image"; "plt"; "tqdm"; "argparse"; "transforms"; "KFold";
    "Transform"; "StochasticApprox"; "Network"; "PascalVOCDataset";
    "Embedding_Queues"; "CE_loss"; "_get_patches"; "batch_augment";
    "get_embeddings"; "simple_PCGJCL"; "PolynomialLRDecay"; "save_loss";
    "DiceCoefficient"; "Accuracy"; "MeanIOU"; "select_reliable"; "Label";
    "voc_mask_color_map"; "dev"; "parse_args"; "reset_bn_stats"; "validate";
    "get_dynamic_weight"; "train"; "load_pretrained_model"; "to_one_hot";
    "main" ].

(** What a name can be bound to, as far as [main] tells values apart. *)
Inductive PyObj : Type :=
| PyDataset (samples : list Sample)
| PyOpaque.

(** Reading a name that the function never assigns: Python looks it up
    among the module's globals (then the builtins, none of which is a
    dataset) and raises [NameError] when it is not bound. *)
Definition load_global (name : string) : M PyObj :=
  if bool_decide (name ∈ module_globals) then mret PyOpaque
  else raise (NameError name).

(** [ConcatDataset([a, b])]. *)
Definition ConcatDataset (a b : PyObj) : Exn (list Sample) :=
  match a, b with
  | PyDataset a, PyDataset b => Ok (a ++ b)
  | _, _ => Raise (TypeError "object of this type has no len()")
  end.

(** ** The stage orchestrator (lines 262-426) *)

(** The parsed command line (lines 39-50). *)
Record Args : Type := {
  dataset_path : string;
  output_dir : string;
  patch_size : Z;
  embedding_size : Z;
  img_size : Z;
  batch_size : Z;
  ContrastiveWeights : Q;
  save_interval : Z
}.

Definition default_args : Args :=
  {| dataset_path := "/home/S312112021/dataset/0_data_dataset_voc_950_kidney";
     output_dir := "dataset/splits/kidney";
     patch_size := 14; embedding_size := 128; img_size := 224;
     batch_size := 16; ContrastiveWeights := 0; save_interval := 2 |}.

(** How the body of the fold loop ends: at its last line, or in [return]. *)
Inductive Flow : Type := Next | Returned.

Fixpoint for_folds {A S : Type} (body : S -> A -> M (Flow * S)) (s : S)
    (items : list A) : M (Flow * S) :=
  match items with
  | [] => mret (Next, s)
  | x :: rest =>
      r ← body s x;
      match r.1 with
      | Returned => mret r
      | Next => for_folds body r.2 rest
      end
  end.

Definition banner (text : string) : string :=
  nl +:+ nl +:+ nl +:+ "================> " +:+ text.

Section Pipeline.
Context {Hidden : Type} (O : Oracle Hidden).

(** [Network(num_classes, embedding_size=embedding_size)]: a new module, in
    training mode, its parameters requiring gradients.  The first value of
    [contrast] is never read: line 155 and line 159 set the flag before the
    first call of either network. *)
Definition Network : M Model := fun w =>
  (Ok {| ident := next_ident w; params := init_params O (next_ident w);
         requires_grad := true; contrast := false; training := true |},
   {| ckpts := ckpts w; csvs := csvs w; next_ident := S (next_ident w);
      trace := trace w |}).

(** Lines 282-297: the two networks and the optimizers.  [nn.DataParallel]
    and [to(dev)] keep the parameters; [optimizer_ssl] and [scheduler] are
    constructed and never used. *)
Definition make_models : M (Model * Model * Optimizer * Optimizer) :=
  model ← Network;
  teacher_model ← Network;
  (* 285-286 *)
  let teacher_model := set_requires_grad false teacher_model in
  (* 288 *)
  let teacher_model := set_params (params model) teacher_model in
  (* 296-297 *)
  let optimizer_pretrain := {| opt_params_of := ident model |} in
  let optimizer_ssl := {| opt_params_of := ident model |} in
  mret (model, teacher_model, optimizer_pretrain, optimizer_ssl).

(** Lines 277-278: where [main] has the loss logs and the checkpoints
    written. *)
Definition main_save_loss_path (args : Args) : string :=
  "output/loss_" +:+ str (patch_size args) +:+ "-"
    +:+ str_weight O (ContrastiveWeights args).

Definition main_save_loss_model_path (args : Args) : string :=
  "output/" +:+ str (patch_size args) +:+ "-"
    +:+ str_weight O (ContrastiveWeights args).

(** Lines 382-424: stages 5 and 6 of one fold. *)
Definition stages_5_6 (args : Args) (save_loss_model_path save_loss_path : string)
    (optimizer_pretrain : Optimizer) (fold : Z) (valid_loader : list Batch)
    (remaining_dataset : list Sample) (model teacher_model : Model) (h : Hidden)
  : M (Flow * (Model * Model * Hidden)) :=
  _ ← print (banner "Total stage 5/6: Generate pseudo labels for remaining images");
  (* 384-385 *)
  _ ← (if (Z.of_nat (length remaining_dataset) <? batch_size args)%Z
       then print "remaining_dataset < batch size" else mret tt);
  (* 387-389 *)
  let save_model_path := save_loss_model_path +:+ "/model_SSL-reliable-st1_" in
  let SSL_step1_end_epoch := 100%Z in
  mt ← load_pretrained_model model teacher_model save_model_path SSL_step1_end_epoch;
  let model := mt.1 in
  let teacher_model := mt.2 in
  remaining_loader ← lift (DataLoader remaining_dataset (batch_size args));
  (* 391-393 *)
  remaining_label_dataset ← Label model remaining_loader;
  remaining_label_loader ← lift (DataLoader remaining_label_dataset (batch_size args));
  _ ← print ("remaining_label_loader:  "
               +:+ str (Z.of_nat (length remaining_label_loader)));
  (* 395-397 *)
  if (length remaining_label_loader <? 2)%nat
  then
    _ ← print "remaining_label_loader < 2";
    mret (Returned, (model, teacher_model, h))
  else
    (* 399-424 *)
    _ ← print (banner
                 "Total stage 6/6: Semi-supervised training with reliable images (SSL)");
    let SSL_step2_start_epoch := 0%Z in
    let SSL_step2_end_epoch := 100%Z in
    r ← train O model teacher_model remaining_label_loader valid_loader
          optimizer_pretrain SSL_step2_start_epoch SSL_step2_end_epoch
          "SSL-reliable-st2" (ContrastiveWeights args) fold (save_interval args)
          save_loss_model_path save_loss_path h;
    mret (Next, r).

(** Lines 312-348: stages 1 and 2 of one fold.  The result holds the two
    models, the hidden state, the validation loader and the two sets of the
    selection. *)
Definition stages_1_2 (args : Args) (save_loss_model_path save_loss_path : string)
    (optimizer_pretrain : Optimizer) (labeled_dataset : list Sample)
    (unlabeled_loader : list Batch) (supervised_start_epoch supervised_end_epoch : Z)
    (fold : Z) (train_ids valid_ids : list nat) (model teacher_model : Model)
    (h : Hidden)
  : M (Model * Model * Hidden * list Batch * (list Sample * list Sample)) :=
  _ ← print ("FOLD " +:+ str fold);
  _ ← print "--------------------------------";
  (* 314-318 *)
  train_loader ← lift (DataLoader (omap (fun i => labeled_dataset !! i) train_ids)
                         (batch_size args));
  valid_loader ← lift (DataLoader (omap (fun i => labeled_dataset !! i) valid_ids)
                         (batch_size args));
  (* 320-341 *)
  r ← train O model teacher_model train_loader valid_loader optimizer_pretrain
        supervised_start_epoch supervised_end_epoch "supervised-Pretraining"
        (ContrastiveWeights args) fold (save_interval args)
        save_loss_model_path save_loss_path h;
  let model := r.1.1 in
  let teacher_model := r.1.2 in
  let h := r.2 in
  (* 343-348 *)
  _ ← print (banner
               "Total stage 2/6: Select reliable images for the 1st stage re-training");
  let save_model_path := save_loss_model_path +:+ "/model_supervised-Pretraining_" in
  mt ← load_pretrained_model model teacher_model save_model_path supervised_end_epoch;
  let model := mt.1 in
  let teacher_model := mt.2 in
  rr ← select_reliable O model teacher_model unlabeled_loader;
  let reliable_dataset := rr.1 in
  let remaining_dataset := rr.2 in
  _ ← print ("reliable_dataset: " +:+ str (Z.of_nat (length reliable_dataset)));
  _ ← print ("remaining_dataset: " +:+ str (Z.of_nat (length remaining_dataset)));
  mret (model, teacher_model, h, valid_loader, (reliable_dataset, remaining_dataset)).

(** Lines 350-380: stages 3 and 4 of one fold.  [train_dataset] is assigned
    nowhere in [main], so the name is read as a global. *)
Definition stages_3_4 (args : Args) (save_loss_model_path save_loss_path : string)
    (optimizer_pretrain : Optimizer) (fold : Z) (valid_loader : list Batch)
    (reliable_dataset : list Sample) (model teacher_model : Model) (h : Hidden)
  : M (Model * Model * Hidden) :=
  (* 350-353 *)
  _ ← print (banner "Total stage 3/6: Concat train_dataset reliable_dataset");
  train_dataset ← load_global "train_dataset";
  combined_dataset ← lift (ConcatDataset train_dataset (PyDataset reliable_dataset));
  combined_loader ← lift (DataLoader combined_dataset (batch_size args));
  _ ← print ("combined_dataset:  " +:+ str (Z.of_nat (length combined_dataset)));
  (* 355-380 *)
  _ ← print (banner
               "Total stage 4/6: Semi-supervised training with reliable images (SSL)");
  let SSL_step1_start_epoch := 0%Z in
  let SSL_step1_end_epoch := 100%Z in
  train O model teacher_model combined_loader valid_loader optimizer_pretrain
    SSL_step1_start_epoch SSL_step1_end_epoch "SSL-reliable-st1"
    (ContrastiveWeights args) fold (save_interval args)
    save_loss_model_path save_loss_path h.

(** Lines 312-424: the body of the fold loop. *)
Definition fold_body (args : Args) (save_loss_model_path save_loss_path : string)
    (optimizer_pretrain : Optimizer) (labeled_dataset : list Sample)
    (unlabeled_loader : list Batch) (supervised_start_epoch supervised_end_epoch : Z)
    (state : Model * Model * Hidden) (item : Z * (list nat * list nat))
  : M (Flow * (Model * Model * Hidden)) :=
  let fold := item.1 in
  s ← stages_1_2 args save_loss_model_path save_loss_path optimizer_pretrain
        labeled_dataset unlabeled_loader supervised_start_epoch
        supervised_end_epoch fold item.2.1 item.2.2 state.1.1 state.1.2 state.2;
  let valid_loader := s.1.2 in
  let reliable_dataset := s.2.1 in
  let remaining_dataset := s.2.2 in
  r ← stages_3_4 args save_loss_model_path save_loss_path optimizer_pretrain fold
        valid_loader reliable_dataset s.1.1.1.1 s.1.1.1.2 s.1.1.2;
  stages_5_6 args save_loss_model_path save_loss_path optimizer_pretrain fold
    valid_loader remaining_dataset r.1.1 r.1.2 r.2.

(** Lines 262-426.  [labeled_lines] and [unlabeled_lines] are the numbers of
    lines of [labeled.txt] and [unlabeled.txt]. *)
Definition main (args : Args) (labeled_lines unlabeled_lines : nat) (h : Hidden)
  : M unit :=
  let k_folds := 5%nat in
  let save_loss_path := main_save_loss_path args in
  let save_loss_model_path := main_save_loss_model_path args in
  ms ← make_models;
  let model := ms.1.1.1 in
  let teacher_model := ms.1.1.2 in
  let optimizer_pretrain := ms.1.2 in
  (* 300-305 *)
  let labeled_dataset := PascalVOCDataset true labeled_lines in
  let unlabeled_dataset := PascalVOCDataset false unlabeled_lines in
  unlabeled_loader ← lift (DataLoader unlabeled_dataset (batch_size args));
  (* 307-311 *)
  _ ← print (banner
               "Total stage 1/6: Supervised training on labeled images (SupOnly)");
  let supervised_start_epoch := 0%Z in
  let supervised_end_epoch := 100%Z in
  folds ← lift (KFold_split (kfold_shuffle O) k_folds (length labeled_dataset));
  r ← for_folds
        (fold_body args save_loss_model_path save_loss_path optimizer_pretrain
           labeled_dataset unlabeled_loader supervised_start_epoch
           supervised_end_epoch)
        (model, teacher_model, h) (enumerate folds);
  match r.1 with
  | Returned => mret tt
  | Next => print (banner "Finish")
  end.

End Pipeline.

(** ** Notions used in the statements *)

(** The world after one epoch that ran to its end: a row appended to the
    loss log and, when the epoch saved, the checkpoint written. *)
Definition after_epoch (w : World) (filename : string) (row : Row)
    (saved : option (string * Model)) : World :=
  {| ckpts := match saved with
              | Some (path, model) => <[path := model]> (ckpts w)
              | None => ckpts w
              end;
     csvs := <[filename := rows w filename ++ [row]]> (csvs w);
     next_ident := next_ident w;
     trace := trace w ++ EvSaveLoss filename
                :: match saved with
                   | Some (path, _) => [EvTorchSave path]
                   | None => []
                   end |}.


(** The world with more events on its trace. *)
Definition add_events (w : World) (events : list Event) : World :=
  {| ckpts := ckpts w; csvs := csvs w; next_ident := next_ident w;
     trace := trace w ++ events |}.

(** The world after [n] calls of [torch.load]. *)
Definition add_objects (w : World) (n : nat) : World :=
  {| ckpts := ckpts w; csvs := csvs w; next_ident := n + next_ident w;
     trace := trace w |}.

Definition is_Ok {A : Type} (r : Exn A) : bool :=
  match r with
  | Ok _ => true
  | Raise _ => false
  end.

(** The events of one completed epoch. *)
Definition epoch_events (filename : string) (path : Z -> string)
    (save_interval c_epochs : Z) : list Event :=
  EvSaveLoss filename
    :: (if (c_epochs mod save_interval =? 0)%Z then [EvTorchSave (path c_epochs)] else []).

(** ** Concrete runs *)

(** An oracle to run the program with: every loss is 1, an optimizer step
    adds 1 to each parameter, the folds are drawn in file order, an image
    scores its line number and half of the images are called reliable. *)
Definition demo_oracle : Oracle unit :=
  {| init_params := fun i => [inject_Z (Z.of_nat i); 2%Q];
     PCGJCL_item := fun _ _ _ _ => 1%Q;
     supervised_item := fun _ _ _ => 1%Q;
     stepped_params := fun _ m _ _ => (fun p => p + 1)%Q <$> params m;
     next_hidden := fun h _ _ _ => h;
     metrics_of := fun _ _ _ => (0%Q, 0%Q, 0%Q);
     str_weight := fun cw => if Qeq_bool cw 0 then "0" else "0.5";
     kfold_shuffle := fun indices => indices;
     reliability :=
       fun _ _ s => match s with Labeled i | Unlabeled i => inject_Z (Z.of_nat i) end;
     reliable_quota := fun n => (n / 2)%nat |}.

Definition demo_student : Model :=
  {| ident := 0; params := [1%Q; 2%Q]; requires_grad := true;
     contrast := false; training := true |}.

Definition demo_teacher : Model :=
  {| ident := 1; params := [0%Q; 4%Q]; requires_grad := false;
     contrast := false; training := true |}.

Definition demo_env : TrainEnv :=
  {| student := demo_student; teacher := demo_teacher; hidden := tt;
     epoch_t_loss := 0; total_t_supervised_loss := 0;
     total_t_contrastive_loss := 0; PatchCL_weight := None; calls := [] |}.

Definition demo_batch : Batch := [Labeled 0; Labeled 1; Labeled 2; Labeled 3].

Definition demo_optimizer : Optimizer := {| opt_params_of := 0 |}.

(** A labeled set of 20 samples with batch size 4: one fold trains on 16
    samples (four batches) and validates on 4 (one batch). *)
Definition demo_train_loader : list Batch := batches 4 4 (Labeled <$> seq 0 16).
Definition demo_val_loader : list Batch := batches 1 4 (Labeled <$> seq 16 4).

(** The command line [--batch_size 4 --ContrastiveWeights 0.5]. *)
Definition demo_args : Args :=
  {| dataset_path := dataset_path default_args;
     output_dir := output_dir default_args;
     patch_size := 14; embedding_size := 128; img_size := 224;
     batch_size := 4; ContrastiveWeights := 0.5; save_interval := 2 |}.

(** Two saved models. *)
Definition demo_saved_model : Model :=
  {| ident := 0; params := [5%Q; 6%Q]; requires_grad := true;
     contrast := false; training := false |}.

Definition demo_saved_teacher : Model :=
  {| ident := 0; params := [7%Q; 7%Q]; requires_grad := true;
     contrast := false; training := false |}.

(** Checkpoint files where [load_pretrained_model] looks for them. *)
Definition demo_checkpoints : gmap string Model :=
  <["output/14-0.5/model_supervised-Pretraining_100-s.pth" := demo_saved_model]>
    (<["output/14-0.5/model_supervised-Pretraining_90-s.pth" := demo_saved_teacher]>
       (<["output/14-0.5/model_SSL-reliable-st1_100-s.pth" := demo_saved_model]>
          (<["output/14-0.5/model_SSL-reliable-st1_90-s.pth" := demo_saved_teacher]> ∅))).

(** The state of the files when the program starts: with and without
    checkpoints from elsewhere. *)
Definition demo_disk : World :=
  {| ckpts := demo_checkpoints; csvs := ∅; next_ident := 0; trace := [] |}.

Definition empty_disk : World :=
  {| ckpts := ∅; csvs := ∅; next_ident := 0; trace := [] |}.


(** An empty [output/] directory; the two networks of [main] exist. *)
Definition demo_world : World :=
  {| ckpts := ∅; csvs := ∅; next_ident := 2; trace := [] |}.

(** The checkpoints of [demo_disk] once the two networks of [main] exist, and
    a remaining set of three batches of [demo_args]. *)
Definition demo_disk_with_models : World :=
  {| ckpts := demo_checkpoints; csvs := ∅; next_ident := 2; trace := [] |}.

Definition demo_remaining_12 : list Sample := Unlabeled <$> seq 0 12.

(** ** One-hot encoding (lines 253-257) *)

(** A tensor of rank 3 or 4: its shape and its entries, read by index; only
    the entries at indices within the shape mean anything. *)
Record Tensor3 (A : Type) : Type := {
  shape3 : nat * nat * nat;
  item3 : nat -> nat -> nat -> A
}.
Arguments shape3 {A} _.
Arguments item3 {A} _ _ _ _.

Record Tensor4 (A : Type) : Type := {
  shape4 : nat * nat * nat * nat;
  item4 : nat -> nat -> nat -> nat -> A
}.
Arguments shape4 {A} _.
Arguments item4 {A} _ _ _ _ _.

(** The [RuntimeError]s of the tensor operations used. *)
Inductive RuntimeError : Type :=
| negative_dimension (size : Z)
| index_larger_than_self
| index_out_of_bounds (index : Z) (size : nat).

(** [torch.zeros(n, c, h, w)]. *)
Definition zeros (n : nat) (c : Z) (h w : nat) : RuntimeError + Tensor4 Q :=
  if (c <? 0)%Z then inl (negative_dimension c)
  else inr {| shape4 := (n, Z.to_nat c, h, w); item4 := fun _ _ _ _ => 0%Q |}.

(** [tensor.unsqueeze(1)]. *)
Definition unsqueeze (tensor : Tensor3 Z) : Tensor4 Z :=
  {| shape4 := (tensor.(shape3).1.1, 1%nat, tensor.(shape3).1.2, tensor.(shape3).2);
     item4 := fun i _ j k => item3 tensor i j k |}.

(** The indices of a tensor of the given shape, in storage order. *)
Definition indices4 (shape : nat * nat * nat * nat) : list (nat * nat * nat * nat) :=
  i ← seq 0 shape.1.1.1;
  c ← seq 0 shape.1.1.2;
  j ← seq 0 shape.1.2;
  k ← seq 0 shape.2;
  [(i, c, j, k)].

(** [self[i][c][j][k] = value]. *)
Definition setitem4 (self : Tensor4 Q) (at_ : nat * nat * nat * nat) (value : Q)
  : Tensor4 Q :=
  {| shape4 := shape4 self;
     item4 := fun i c j k =>
       if decide ((i, c, j, k) = at_) then value else item4 self i c j k |}.

(** The writes of [self.scatter_(1, index, value)], one per entry of [index]:
    [self[i][index[i][c][j][k]][j][k] = value], which raises when the entry
    of [index] is not an index of dimension 1 of [self]. *)
Fixpoint scatter_writes (self : Tensor4 Q) (index : Tensor4 Z) (value : Q)
    (entries : list (nat * nat * nat * nat)) : RuntimeError + Tensor4 Q :=
  match entries with
  | [] => inr self
  | (i, c, j, k) :: rest =>
      let target := item4 index i c j k in
      let size := (shape4 self).1.1.2 in
      if ((0 <=? target) && (target <? Z.of_nat size))%Z
      then scatter_writes (setitem4 self (i, Z.to_nat target, j, k) value)
             index value rest
      else inl (index_out_of_bounds target size)
  end.

(** [self.scatter_(1, index, value)]: outside dimension 1 the index tensor
    must not be larger than [self]. *)
Definition scatter_ (self : Tensor4 Q) (index : Tensor4 Z) (value : Q)
  : RuntimeError + Tensor4 Q :=
  if ((shape4 index).1.1.1 <=? (shape4 self).1.1.1)%nat
     && ((shape4 index).1.2 <=? (shape4 self).1.2)%nat
     && ((shape4 index).2 <=? (shape4 self).2)%nat
  then scatter_writes self index value (indices4 (shape4 index))
  else inl index_larger_than_self.

(** Lines 253-257.  The argument is a tensor of rank 3 (the unpacking of
    [tensor.shape] at line 254) of integers. *)
Definition to_one_hot (tensor : Tensor3 Z) (num_classes : Z)
  : RuntimeError + Tensor4 Q :=
  let n := tensor.(shape3).1.1 in
  let h := tensor.(shape3).1.2 in
  let w := tensor.(shape3).2 in
  match zeros n num_classes h w with
  | inl e => inl e
  | inr one_hot => scatter_ one_hot (unsqueeze tensor) 1
  end.

(** Whether the write for the entry [e] of [index] goes to [self[i][c][j][k]]. *)
Definition writes_to (index : Tensor4 Z) (i c j k : nat)
    (e : nat * nat * nat * nat) : bool :=
  bool_decide ((e.1.1.1, Z.to_nat (item4 index e.1.1.1 e.1.1.2 e.1.2 e.2), e.1.2, e.2)
               = (i, c, j, k)).

(** A tensor of shape (1, 2, 2) with the labels 0 1 / 2 1. *)
Definition demo_labels : Tensor3 Z :=
  {| shape3 := (1, 2, 2)%nat;
     item3 := fun _ j k =>
       match j, k with
       | 0%nat, 0%nat => 0%Z
       | 1%nat, 0%nat => 2%Z
       | _, _ => 1%Z
       end |}.

(** ** The dataset of [utils/.ipynb_checkpoints/datasets_PASCAL-checkpoint.py] *)

Module datasets_PASCAL.

(** [str.isspace] on the code points below 256: tab to carriage return, the
    four separators 28 to 31, the space, NEL and the no-break space. *)
Definition isspace (c : Ascii.ascii) : bool :=
  let n := Ascii.nat_of_ascii c in
  (((9 <=? n) && (n <=? 13)) || ((28 <=? n) && (n <=? 32))
   || (n =? 133) || (n =? 160))%nat.

Fixpoint lstrip (s : string) : string :=
  match s with
  | EmptyString => EmptyString
  | String c s' => if isspace c then lstrip s' else s
  end.

Fixpoint rstrip (s : string) : string :=
  match s with
  | EmptyString => EmptyString
  | String c s' =>
      match rstrip s' with
      | EmptyString => if isspace c then EmptyString else String c EmptyString
      | r => String c r
      end
  end.

(** [s.strip()]. *)
Definition strip (s : string) : string := rstrip (lstrip s).

(** [s.split()]: the maximal runs of characters that are not whitespace. *)
Fixpoint split (s : string) : list string :=
  match s with
  | EmptyString => []
  | String c s' =>
      let words := split s' in
      if isspace c then words
      else
        match s', words with
        | String c' _, word :: words' =>
            if isspace c' then String c EmptyString :: words
            else String c word :: words'
        | _, _ => String c EmptyString :: words
        end
  end.

(** A line of whitespace only, and a non-empty string without whitespace. *)
Fixpoint blank (s : string) : bool :=
  match s with
  | EmptyString => true
  | String c s' => isspace c && blank s'
  end.

Fixpoint no_space (s : string) : bool :=
  match s with
  | EmptyString => true
  | String c s' => negb (isspace c) && no_space s'
  end.

Definition word (s : string) : Prop := s <> EmptyString /\ no_space s = true.

(** The exceptions [__getitem__] can raise. *)
Inductive Error : Type :=
| IndexError
| cv2_error.

Definition and_then {A B : Type} (r : Error + A) (k : A -> Error + B) : Error + B :=
  match r with
  | inl e => inl e
  | inr a => k a
  end.

(** [l[idx]] for a Python list: negative indices count from the end. *)
Definition list_getitem {A : Type} (l : list A) (idx : Z) : Error + A :=
  let i := if (idx <? 0)%Z then (idx + Z.of_nat (length l))%Z else idx in
  if (i <? 0)%Z then inl IndexError
  else match l !! Z.to_nat i with
       | Some x => inr x
       | None => inl IndexError
       end.

Definition sep : Ascii.ascii := Eval cbv in Ascii.ascii_of_nat 47.

Fixpoint ends_with_sep (s : string) : bool :=
  match s with
  | EmptyString => false
  | String c EmptyString => Ascii.eqb c sep
  | String _ s' => ends_with_sep s'
  end.

(** [os.path.join(a, p)] (posixpath): a [p] that starts with the separator
    replaces [a]; otherwise it is appended, after a separator unless [a] is
    empty or ends with one. *)
Definition join (a p : string) : string :=
  let joined :=
    match a with
    | EmptyString => p
    | _ => if ends_with_sep a then a +:+ p else a +:+ "/" +:+ p
    end in
  match p with
  | String c _ => if Ascii.eqb c sep then p else joined
  | EmptyString => joined
  end.

(** A decoded image: its number of channels and the file it was read from. *)
Record Mat : Type := {
  channels : nat;
  filename : string
}.

(** What a call of [__getitem__] returns; the tensors are functions of the
    decoded files and of [image_size]. *)
Inductive Item : Type :=
| image_and_mask (image mask : Mat) (size : Z)
| image_only (image : Mat).

Record PascalVOCDataset : Type := {
  root_dir : string;
  image_size : Z;
  labeled : bool;
  image_mask_pairs : list (list string)
}.

(** [__init__], given the lines the opened [txt_file] yields. *)
Definition __init__ (lines : list string) (image_size : Z) (root_dir : string)
    (labeled : bool) : PascalVOCDataset :=
  {| root_dir := root_dir; image_size := image_size; labeled := labeled;
     image_mask_pairs := (fun line => split (strip line)) <$> lines |}.

Definition __len__ (self : PascalVOCDataset) : Z :=
  Z.of_nat (length (image_mask_pairs self)).

Section Files.
(** The files [cv2.imread] can decode. *)
Context (readable : string -> bool).

(** [cv2.imread(filename, flags)]: [None] for a file it cannot decode, one
    channel with [IMREAD_GRAYSCALE], three with the default flag. *)
Definition imread (filename : string) (grayscale : bool) : option Mat :=
  if readable filename
  then Some {| channels := if grayscale then 1 else 3; filename := filename |}
  else None.

(** [cv2.cvtColor(src, cv2.COLOR_BGR2RGB)]: the source must be an image of
    three or four channels. *)
Definition cvtColor (src : option Mat) : Error + Mat :=
  match src with
  | None => inl cv2_error
  | Some m =>
      if ((channels m =? 3) || (channels m =? 4))%nat then inr m else inl cv2_error
  end.

(** [cv2.resize(src, (size, size), ...)]: the size must be positive. *)
Definition resize (src : Mat) (size : Z) : Error + Mat :=
  if (size <=? 0)%Z then inl cv2_error else inr src.

Definition __getitem__ (self : PascalVOCDataset) (idx : Z) : Error + Item :=
  and_then (list_getitem (image_mask_pairs self) idx) (fun pair =>
  and_then (list_getitem pair 0) (fun name =>
  let img_name := join (root_dir self) name in
  let image := imread img_name true in
  and_then (cvtColor image) (fun image =>
  if labeled self then
    and_then (list_getitem pair 1) (fun name =>
    let mask_name := join (root_dir self) name in
    let mask := imread mask_name false in
    and_then (cvtColor mask) (fun mask =>
    and_then (resize mask (image_size self)) (fun mask =>
    inr (image_and_mask image mask (image_size self)))))
  else inr (image_only image)))).

End Files.

End datasets_PASCAL.

(** ** The copy of [validate] in [utils/.ipynb_checkpoints/validate-checkpoint.py] *)

Module utils.
Section Validate.
Context {Hidden : Type} (O : Oracle Hidden).
(** [evaluate()] of [MeanIOU()] and [DiceCoefficient()], the two accumulators
    this copy builds, with their default thresholds. *)
Context (miou_dice_of : Hidden -> Model -> list Batch -> Q * Q).

(** Lines 8-34.  The result holds the model object as the call leaves it and
    the three values returned: [val_loss, val_miou, val_dice]. *)
Definition validate (h : Hidden) (model : Model) (val_loader : list Batch)
  : Exn (Model * (Q * Q * Q)) :=
  let model := set_contrast false (set_training false model) in
  let sums :=
    foldl (fun acc imgs =>
             let size0 := Z.of_nat (length imgs) in
             ((acc.1 + supervised_item O h model imgs * inject_Z size0)%Q,
              (acc.2 + size0)%Z))
          (0%Q, 0%Z) val_loader in
  val_loss ← py_truediv sums.1 (inject_Z sums.2);
  let val_dice := (miou_dice_of h model val_loader).2 in
  let val_miou := (miou_dice_of h model val_loader).1 in
  Ok (model, (val_loss, val_miou, val_dice)).

End Validate.
End utils.

(** * Properties *)

(** ** The weight schedule *)

Lemma get_dynamic_weight_100 (epoch : Z) :
  get_dynamic_weight epoch 100 = Ok (schedule_spec epoch).
Proof.
  unfold get_dynamic_weight, schedule_spec, schedule_increment.
  change (100 / 10)%Z with 10%Z. cbn [py_truediv].
  change (Qeq_bool (inject_Z 10) 0) with false. cbn.
  destruct (epoch <? 10)%Z; reflexivity.
Qed.

(** C1: with [end_epochs = 100] the schedule returns 0.1 for every epoch
    below 10 and [0.1 + (epoch // 10) * increment] from epoch 10 on, where
    [increment = (1.0 - 0.1) / 10]; so it returns 0.1 at epoch 5,
    [0.1 + 1 * increment] at epoch 15 and [0.1 + 9 * increment] at epoch 95. *)
Theorem C1_dynamic_weight_schedule :
  (forall epoch : Z,
     get_dynamic_weight epoch 100
     = Ok (if (epoch <? 10)%Z then 0.1
           else 0.1 + inject_Z (epoch / 10) * ((1.0 - 0.1) / 10))%Q) /\
  get_dynamic_weight 5 100 = Ok 0.1%Q /\
  get_dynamic_weight 15 100 = Ok (0.1 + 1 * ((1.0 - 0.1) / 10))%Q /\
  get_dynamic_weight 95 100 = Ok (0.1 + 9 * ((1.0 - 0.1) / 10))%Q.
Proof.
  split; [| repeat split].
  intros epoch. rewrite get_dynamic_weight_100. unfold schedule_spec.
  destruct (epoch <? 10)%Z; reflexivity.
Qed.

(** ** The training step *)

Section StepFacts.
Context {Hidden : Type} (O : Oracle Hidden).

Lemma select_PatchCL_weight_pretraining (cw : Q) (c_epochs end_epochs : Z) :
  select_PatchCL_weight "supervised-Pretraining" cw c_epochs end_epochs
  = if Qeq_bool cw 0.0 then get_dynamic_weight c_epochs end_epochs else Ok cw.
Proof. reflexivity. Qed.

Lemma Qeq_bool_zero (cw : Q) : Qeq_bool cw 0.0 = true <-> (cw == 0)%Q.
Proof. rewrite Qeq_bool_iff. split; intros ->; reflexivity. Qed.

Lemma select_PatchCL_weight_other (step_name : string) (cw : Q)
    (c_epochs end_epochs : Z) :
  step_name <> "supervised-Pretraining" ->
  select_PatchCL_weight step_name cw c_epochs end_epochs = Ok 0.5%Q.
Proof.
  intros Hne. unfold select_PatchCL_weight.
  destruct (String.eqb_spec step_name "supervised-Pretraining"); [contradiction | reflexivity].
Qed.

(** The optimizer moves no parameter that the backward pass did not reach,
    and none of a model it was not constructed over. *)
Lemma optimizer_step_untracked optimizer (h : Hidden) (batch : Batch) (loss : Q)
    (m : Model) :
  optimizer_step O optimizer h batch loss false m = m.
Proof. unfold optimizer_step. rewrite andb_false_r. reflexivity. Qed.

Lemma optimizer_step_other optimizer (h : Hidden) (batch : Batch) (loss : Q)
    (tracked : bool) (m : Model) :
  opt_params_of optimizer <> ident m ->
  optimizer_step O optimizer h batch loss tracked m = m.
Proof.
  intros Hne. unfold optimizer_step.
  destruct (Nat.eqb_spec (opt_params_of optimizer) (ident m)); [contradiction | reflexivity].
Qed.

(** A step fails only when the weight cannot be computed, and otherwise
    leaves the environment written out in [train_step]. *)
Lemma train_step_inv optimizer step_name cw c_epochs end_epochs
    (env env' : TrainEnv) (batch : Batch) :
  train_step O optimizer step_name cw c_epochs end_epochs env batch = Ok env' ->
  exists weight,
    select_PatchCL_weight step_name cw c_epochs end_epochs = Ok weight /\
    let model0 := set_contrast true (set_training true (student env)) in
    let teacher0 := set_contrast true (set_training true (teacher env)) in
    let pc := PCGJCL_item O (hidden env) model0 teacher0 batch in
    let sup := supervised_item O (hidden env) (set_contrast false model0) batch in
    let loss := (sup + weight * pc)%Q in
    let model1 :=
      optimizer_step O optimizer (hidden env) batch loss true
        (set_contrast false model0) in
    student env' = model1 /\
    teacher env' = set_params (ema_update (params model1) (params teacher0)) teacher0 /\
    epoch_t_loss env' = (epoch_t_loss env + loss)%Q /\
    total_t_supervised_loss env' = (total_t_supervised_loss env + sup)%Q /\
    total_t_contrastive_loss env' = (total_t_contrastive_loss env + pc)%Q /\
    PatchCL_weight env' = Some weight /\
    calls env' = calls env ++ [get_embeddings_call Student true;
                               get_embeddings_call Teacher true;
                               forward_call Student false].
Proof.
  unfold train_step. intros H.
  destruct (select_PatchCL_weight step_name cw c_epochs end_epochs) as [weight | e];
    [| discriminate].
  cbn in H. injection H as <-. exists weight. split; [reflexivity |].
  cbn. rewrite !optimizer_step_untracked.
  repeat split. rewrite <- !app_assoc. reflexivity.
Qed.

Lemma train_step_ok optimizer step_name cw c_epochs end_epochs
    (env : TrainEnv) (batch : Batch) (weight : Q) :
  select_PatchCL_weight step_name cw c_epochs end_epochs = Ok weight ->
  exists env', train_step O optimizer step_name cw c_epochs end_epochs env batch = Ok env'.
Proof. intros H. unfold train_step. rewrite H. cbn. eauto. Qed.

(** C2: in every training step the total loss is the supervised loss plus
    the weight times the contrastive loss, and the weight is chosen by stage
    name: for "supervised-Pretraining" the nonzero override, or with a zero
    override the value of the dynamic schedule at the current epoch; for any
    other stage name the constant 0.5. *)
Theorem C2_contrastive_weight_by_stage optimizer step_name cw c_epochs end_epochs
    (env env' : TrainEnv) (batch : Batch) :
  train_step O optimizer step_name cw c_epochs end_epochs env batch = Ok env' ->
  exists weight supervised contrastive : Q,
    PatchCL_weight env' = Some weight /\
    total_t_supervised_loss env' = (total_t_supervised_loss env + supervised)%Q /\
    total_t_contrastive_loss env' = (total_t_contrastive_loss env + contrastive)%Q /\
    epoch_t_loss env' = (epoch_t_loss env + (supervised + weight * contrastive))%Q /\
    (step_name = "supervised-Pretraining" -> ~ (cw == 0)%Q -> weight = cw) /\
    (step_name = "supervised-Pretraining" -> (cw == 0)%Q ->
       get_dynamic_weight c_epochs end_epochs = Ok weight) /\
    (step_name <> "supervised-Pretraining" -> weight = 0.5%Q).
Proof.
  intros H. apply train_step_inv in H as (weight & Hw & H). cbn zeta in H.
  destruct H as (_ & _ & Hloss & Hsup & Hpc & Hweight & _).
  eexists weight, _, _. repeat split; try eassumption.
  - intros -> Hnz. rewrite select_PatchCL_weight_pretraining in Hw.
    destruct (Qeq_bool cw 0.0) eqn:E.
    + apply Qeq_bool_zero in E. contradiction.
    + congruence.
  - intros -> Hz. rewrite select_PatchCL_weight_pretraining in Hw.
    apply Qeq_bool_zero in Hz. rewrite Hz in Hw. exact Hw.
  - intros Hne. rewrite select_PatchCL_weight_other in Hw by assumption. congruence.
Qed.

End StepFacts.

Lemma C2_witness :
  exists env',
    train_step demo_oracle {| opt_params_of := 0 |} "supervised-Pretraining" 0 15 100
      demo_env demo_batch = Ok env' /\
    exists weight supervised contrastive : Q,
      PatchCL_weight env' = Some weight /\
      total_t_supervised_loss env' = (total_t_supervised_loss demo_env + supervised)%Q /\
      total_t_contrastive_loss env' = (total_t_contrastive_loss demo_env + contrastive)%Q /\
      epoch_t_loss env' = (epoch_t_loss demo_env + (supervised + weight * contrastive))%Q /\
      ("supervised-Pretraining" = "supervised-Pretraining" -> ~ (0 == 0)%Q -> weight = 0%Q) /\
      ("supervised-Pretraining" = "supervised-Pretraining" -> (0 == 0)%Q ->
         get_dynamic_weight 15 100 = Ok weight) /\
      ("supervised-Pretraining" <> "supervised-Pretraining" -> weight = 0.5%Q).
Proof.
  eexists. split; [reflexivity |].
  eapply (C2_contrastive_weight_by_stage demo_oracle). reflexivity.
Defined.

(** ** The teacher update *)









Lemma ema_update_length (stud teach : list Q) :
  length (ema_update stud teach) = length teach.
Proof.
  revert teach. induction stud as [| s0 stud IH]; intros [| t0 teach]; cbn; auto.
Qed.


Section TeacherFacts.
Context {Hidden : Type} (O : Oracle Hidden).



End TeacherFacts.



(** ** The epoch loop *)

Section LoopFacts.
Context {Hidden : Type} (O : Oracle Hidden).

Lemma py_truediv_ok (x y : Q) (r : Q) :
  py_truediv x y = Ok r -> ~ (y == 0)%Q /\ r = (x / y)%Q.
Proof.
  unfold py_truediv. destruct (Qeq_bool y 0) eqn:E; [discriminate |].
  intros [= <-]. split; [| reflexivity]. apply Qeq_bool_neq. exact E.
Qed.

Lemma py_truediv_zero (x : Q) : py_truediv x (inject_Z 0) = Raise ZeroDivisionError.
Proof. reflexivity. Qed.

Lemma train_epoch_inv train_loader val_loader optimizer end_epochs step_name cw
    fold save_interval save_loss_model_path save_loss_path
    (env env' : TrainEnv) (c_epochs : Z) (w w' : World) :
  train_epoch O train_loader val_loader optimizer end_epochs step_name cw
    fold save_interval save_loss_model_path save_loss_path env c_epochs w
  = (Ok env', w') ->
  train_loader <> [] /\
  save_interval <> 0%Z /\
  exists row,
    w' = after_epoch w
           (save_loss_path +:+ "_" +:+ step_name +:+ "-fold" +:+ str fold +:+ ".csv")
           row
           (if (c_epochs mod save_interval =? 0)%Z
            then Some (save_loss_model_path +:+ "/fold/" +:+ str fold +:+ "/model_"
                         +:+ step_name +:+ "_" +:+ str c_epochs +:+ "-s.pth",
                       student env')
            else None).
Proof.
  unfold train_epoch, mbind, M_bind, lift, mret, M_ret.
  destruct (for_each _ _ train_loader) as [env1 | e]; [| discriminate].
  destruct (py_truediv (epoch_t_loss env1) _) as [a1 | e] eqn:E1; [| discriminate].
  destruct (py_truediv (total_t_supervised_loss env1) _) as [a2 | e]; [| discriminate].
  destruct (py_truediv (total_t_contrastive_loss env1) _) as [a3 | e]; [| discriminate].
  destruct (validate O (hidden env1) (student env1) val_loader) as [vr | e];
    [| discriminate].
  destruct (PatchCL_weight env1) as [weight |]; [| discriminate].
  cbn [save_loss]. unfold py_mod.
  destruct (save_interval =? 0)%Z eqn:Esi; [discriminate |].
  intros H. split; [| split].
  - intros ->. discriminate.
  - apply Z.eqb_neq. exact Esi.
  - destruct (c_epochs mod save_interval =? 0)%Z; cbn in H; injection H as <- <-;
      eexists; unfold after_epoch, rows; cbn; rewrite <- ?app_assoc; reflexivity.
Qed.

Lemma epochs_inv train_loader val_loader optimizer end_epochs step_name cw
    fold save_interval save_loss_model_path save_loss_path
    (epochs : list Z) (env env' : TrainEnv) (w w' : World) :
  let filename :=
    save_loss_path +:+ "_" +:+ step_name +:+ "-fold" +:+ str fold +:+ ".csv" in
  let path := fun c_epochs : Z =>
    save_loss_model_path +:+ "/fold/" +:+ str fold +:+ "/model_"
      +:+ step_name +:+ "_" +:+ str c_epochs +:+ "-s.pth" in
  for_eachM (train_epoch O train_loader val_loader optimizer end_epochs step_name cw
               fold save_interval save_loss_model_path save_loss_path)
    env epochs w = (Ok env', w') ->
  trace w' = trace w ++ concat (epoch_events filename path save_interval <$> epochs) /\
  length (rows w' filename) = (length (rows w filename) + length epochs)%nat /\
  (forall other, other <> filename -> csvs w' !! other = csvs w !! other) /\
  (forall p, is_Some (ckpts w' !! p) <->
             is_Some (ckpts w !! p) \/
             exists c_epochs, c_epochs ∈ epochs /\
               (c_epochs mod save_interval = 0)%Z /\ p = path c_epochs) /\
  next_ident w' = next_ident w.
Proof.
  intros filename path. revert env w.
  induction epochs as [| c_epochs epochs IH]; intros env w H.
  - cbn in H. injection H as <- <-. cbn. rewrite app_nil_r.
    split; [| split; [| split; [| split]]]; auto.
    intros p. split; [auto |].
    intros [? | (c & Hc & _)]; [assumption | inversion Hc].
  - cbn [for_eachM] in H. unfold mbind at 1, M_bind at 1 in H.
    destruct (train_epoch _ _ _ _ _ _ _ _ _ _ _ _ _ w) as [[env1 | e] w1] eqn:E;
      [| discriminate].
    apply train_epoch_inv in E as (_ & Hsi & row & ->).
    apply IH in H as (Htrace & Hrows & Hother & Hck & Hid). clear IH.
    fold filename in Htrace, Hrows, Hother, Hck |- *.
    split; [| split; [| split; [| split]]]; [| | | intros p; split |].
    + rewrite Htrace. cbn. unfold epoch_events at 2. fold (path c_epochs).
      destruct (c_epochs mod save_interval =? 0)%Z; cbn; rewrite <- app_assoc; reflexivity.
    + rewrite Hrows. unfold rows at 1. cbn. rewrite lookup_insert_eq. cbn.
      rewrite length_app. cbn. lia.
    + intros other Hne. rewrite Hother by assumption. cbn.
      rewrite lookup_insert_ne by congruence. reflexivity.
    + rewrite Hck. cbn. fold (path c_epochs).
      destruct (c_epochs mod save_interval =? 0)%Z eqn:Em.
      * apply Z.eqb_eq in Em.
        destruct (decide (p = path c_epochs)) as [-> | Hne].
        -- intros _. right. exists c_epochs. split; [left | ]. auto.
        -- rewrite lookup_insert_ne by congruence.
           intros [? | (c & Hc & Hm & ->)]; [left; assumption |].
           right. exists c. split; [right; assumption | auto].
      * intros [? | (c & Hc & Hm & ->)]; [left; assumption |].
        right. exists c. split; [right; assumption | auto].
    + rewrite Hck. cbn. fold (path c_epochs).
      intros [? | (c & Hc & Hm & ->)]; [left |].
      * destruct (c_epochs mod save_interval =? 0)%Z; [| assumption].
        destruct (decide (p = path c_epochs)) as [-> | Hne].
        -- rewrite lookup_insert_eq. eauto.
        -- rewrite lookup_insert_ne by congruence. assumption.
      * apply elem_of_cons in Hc as [-> | Hc].
        -- left. apply Z.eqb_eq in Hm. rewrite Hm. rewrite lookup_insert_eq. eauto.
        -- right. exists c. auto.
    + rewrite Hid. reflexivity.
Qed.

Lemma train_inv model teacher_model train_loader val_loader optimizer
    start_epochs end_epochs step_name cw fold save_interval
    save_loss_model_path save_loss_path (h : Hidden) (w w' : World) r :
  let filename :=
    save_loss_path +:+ "_" +:+ step_name +:+ "-fold" +:+ str fold +:+ ".csv" in
  let path := fun c_epochs : Z =>
    save_loss_model_path +:+ "/fold/" +:+ str fold +:+ "/model_"
      +:+ step_name +:+ "_" +:+ str c_epochs +:+ "-s.pth" in
  train O model teacher_model train_loader val_loader optimizer start_epochs
    end_epochs step_name cw fold save_interval save_loss_model_path
    save_loss_path h w = (Ok r, w') ->
  trace w' = trace w ++ EvTrain step_name
               :: concat (epoch_events filename path save_interval
                            <$> ((fun c => c + 1)%Z <$> range start_epochs end_epochs)) /\
  length (rows w' filename)
  = (length (rows w filename) + Z.to_nat (end_epochs - start_epochs))%nat /\
  (forall other, other <> filename -> csvs w' !! other = csvs w !! other) /\
  (forall p, is_Some (ckpts w' !! p) <->
             is_Some (ckpts w !! p) \/
             exists c_epochs, (start_epochs < c_epochs <= end_epochs)%Z /\
               (c_epochs mod save_interval = 0)%Z /\ p = path c_epochs) /\
  next_ident w' = next_ident w.
Proof.
  intros filename path. unfold train.
  unfold mbind at 1, M_bind at 1. cbn [emit].
  unfold mbind at 1, M_bind at 1.
  match goal with
  | |- context [for_eachM ?body ?env ?epochs ?w0] =>
      destruct (for_eachM body env epochs w0) as [[env' | e] w1] eqn:E
  end; [| discriminate].
  intros [= <- <-].
  apply epochs_inv in E as (Htrace & Hrows & Hother & Hck & Hid).
  cbn in Htrace, Hrows, Hother, Hck, Hid.
  fold filename in Htrace, Hrows, Hother, Hck. fold path in Htrace, Hck.
  split; [| split; [| split; [| split]]].
  - rewrite Htrace, <- app_assoc. reflexivity.
  - rewrite Hrows, length_fmap. unfold range. rewrite length_seqZ. reflexivity.
  - exact Hother.
  - intros p. rewrite Hck. apply or_iff_compat_l.
    split; intros (c & Hc & Hrest); exists c; (split; [| exact Hrest]).
    + apply list_elem_of_fmap in Hc as (c0 & -> & Hc0).
      apply elem_of_seqZ in Hc0. lia.
    + apply list_elem_of_fmap. exists (c - 1)%Z. split; [lia |].
      apply elem_of_seqZ. lia.
  - exact Hid.
Qed.

(** *** Runs that reach their end *)

Lemma validate_sums (h : Hidden) (model : Model) (val_loader : list Batch) (acc : Q * Z) :
  (foldl (fun acc imgs =>
            let size0 := Z.of_nat (length imgs) in
            ((acc.1 + supervised_item O h model imgs * inject_Z size0)%Q,
             (acc.2 + size0)%Z))
         acc val_loader).2
  = (acc.2 + Z.of_nat (length (concat val_loader)))%Z.
Proof.
  revert acc. induction val_loader as [| imgs rest IH]; intros acc; cbn.
  - lia.
  - rewrite IH. cbn. rewrite length_app. lia.
Qed.

Lemma validate_ok (h : Hidden) (model : Model) (val_loader : list Batch) :
  concat val_loader <> [] -> exists r, validate O h model val_loader = Ok r.
Proof.
  intros Hne. unfold validate. rewrite validate_sums. cbn [snd Z.add].
  unfold py_truediv.
  destruct (Qeq_bool _ 0) eqn:E; [| cbn; eauto].
  apply Qeq_bool_iff in E. unfold Qeq in E. cbn in E.
  destruct (concat val_loader); [contradiction | cbn in E; lia].
Qed.

Lemma validate_empty (h : Hidden) (model : Model) :
  validate O h model [] = Raise ZeroDivisionError.
Proof. reflexivity. Qed.

Lemma validate_contrast (h : Hidden) (model : Model) (val_loader : list Batch) r :
  validate O h model val_loader = Ok r ->
  r.1 = set_contrast false (set_training false model).
Proof.
  unfold validate. destruct (py_truediv _ _); [| discriminate].
  intros [= <-]. reflexivity.
Qed.

Lemma batch_loop_ok optimizer step_name cw c_epochs end_epochs (weight : Q)
    (train_loader : list Batch) (env : TrainEnv) :
  select_PatchCL_weight step_name cw c_epochs end_epochs = Ok weight ->
  exists env',
    for_each (train_step O optimizer step_name cw c_epochs end_epochs) env train_loader
    = Ok env' /\
    (train_loader <> [] ->
     PatchCL_weight env' = Some weight /\
     contrast (student env') = false /\ contrast (teacher env') = true).
Proof.
  intros Hw. revert env. induction train_loader as [| batch rest IH]; intros env.
  - exists env. split; [reflexivity | congruence].
  - cbn [for_each].
    destruct (train_step_ok O optimizer _ _ _ _ env batch _ Hw) as [env1 H1].
    rewrite H1. cbn. destruct (IH env1) as (env' & H' & Hlast).
    exists env'. split; [exact H' | intros _].
    destruct rest as [| batch' rest'].
    + cbn in H'. injection H' as <-.
      apply train_step_inv in H1 as (weight' & Hw' & H1). cbn zeta in H1.
      destruct H1 as (-> & -> & _ & _ & _ & -> & _).
      rewrite Hw in Hw'. injection Hw' as <-.
      unfold optimizer_step. destruct (_ && _); auto.
    + apply Hlast. discriminate.
Qed.

Lemma train_epoch_ok train_loader val_loader optimizer end_epochs step_name cw
    fold save_interval save_loss_model_path save_loss_path
    (env : TrainEnv) (c_epochs : Z) (w : World) (weight : Q) :
  train_loader <> [] ->
  concat val_loader <> [] ->
  save_interval <> 0%Z ->
  select_PatchCL_weight step_name cw c_epochs end_epochs = Ok weight ->
  exists env' w',
    train_epoch O train_loader val_loader optimizer end_epochs step_name cw
      fold save_interval save_loss_model_path save_loss_path env c_epochs w
    = (Ok env', w').
Proof.
  intros Htl Hvl Hsi Hw. unfold train_epoch.
  match goal with
  | |- context [for_each ?body ?env0 train_loader] =>
      destruct (batch_loop_ok optimizer _ _ _ _ _ train_loader env0 Hw)
        as (env1 & H1 & Hlast)
  end.
  destruct (Hlast Htl) as (Hweight & _).
  unfold mbind, M_bind, lift, mret, M_ret. rewrite H1.
  assert (Hn : forall x, exists a,
             py_truediv x (inject_Z (Z.of_nat (length train_loader))) = Ok a).
  { intros x. unfold py_truediv. destruct (Qeq_bool _ 0) eqn:E; [| eauto].
    apply Qeq_bool_iff in E. unfold Qeq in E. cbn in E.
    destruct train_loader; [contradiction | cbn in E; lia]. }
  destruct (Hn (epoch_t_loss env1)) as [a1 ->].
  destruct (Hn (total_t_supervised_loss env1)) as [a2 ->].
  destruct (Hn (total_t_contrastive_loss env1)) as [a3 ->].
  destruct (validate_ok (hidden env1) (student env1) val_loader Hvl) as [vr ->].
  rewrite Hweight. cbn [save_loss]. unfold py_mod.
  apply Z.eqb_neq in Hsi. rewrite Hsi.
  destruct (c_epochs mod save_interval =? 0)%Z; cbn; eauto.
Qed.

Lemma train_ok model teacher_model train_loader val_loader optimizer
    start_epochs end_epochs step_name cw fold save_interval
    save_loss_model_path save_loss_path (h : Hidden) (w : World) :
  train_loader <> [] ->
  concat val_loader <> [] ->
  save_interval <> 0%Z ->
  (forall c_epochs, exists weight,
     select_PatchCL_weight step_name cw c_epochs end_epochs = Ok weight) ->
  exists r w',
    train O model teacher_model train_loader val_loader optimizer start_epochs
      end_epochs step_name cw fold save_interval save_loss_model_path
      save_loss_path h w = (Ok r, w').
Proof.
  intros Htl Hvl Hsi Hw. unfold train.
  unfold mbind at 1, M_bind at 1. cbn [emit].
  unfold mbind at 1, M_bind at 1.
  match goal with
  | |- context [for_eachM ?body ?env ?epochs ?w0] =>
      assert (H : exists env' w', for_eachM body env epochs w0 = (Ok env', w'));
      [ generalize env w0; generalize epochs | ]
  end.
  - intros epochs. induction epochs as [| c epochs IH]; intros env w0.
    + cbn. eauto.
    + cbn [for_eachM]. unfold mbind at 1, M_bind at 1.
      destruct (Hw c) as [weight Hc].
      destruct (train_epoch_ok train_loader val_loader optimizer end_epochs
                  step_name cw fold save_interval save_loss_model_path
                  save_loss_path env c w0 weight Htl Hvl Hsi Hc) as (env1 & w1 & ->).
      apply IH.
  - destruct H as (env' & w' & ->). cbn. eauto.
Qed.

End LoopFacts.

Section RunFacts.
Context {Hidden : Type} (O : Oracle Hidden).


End RunFacts.


(** The schedule divides by [end_epochs // 10]: with fewer than ten epochs
    it raises, and so does the first training step of a
    "supervised-Pretraining" stage that uses the schedule. *)
Lemma get_dynamic_weight_short_run (epoch end_epochs : Z) :
  (0 <= end_epochs < 10)%Z ->
  get_dynamic_weight epoch end_epochs = Raise ZeroDivisionError.
Proof.
  intros H. unfold get_dynamic_weight.
  rewrite (Z.div_small end_epochs 10) by exact H. reflexivity.
Qed.

Example pretraining_two_epochs_dynamic_weight_raises :
  train demo_oracle demo_student demo_teacher demo_train_loader demo_val_loader
    demo_optimizer 0 2 "supervised-Pretraining" 0 0 2
    "output/14-0" "output/loss_14-0" tt demo_world
  = (Raise ZeroDivisionError,
     {| ckpts := ∅; csvs := ∅; next_ident := 2;
        trace := [EvTrain "supervised-Pretraining"] |}).
Proof. vm_compute. reflexivity. Qed.

(** ** The contrast flag *)

Section FlagFacts.
Context {Hidden : Type} (O : Oracle Hidden).

(** C9, as the code has it: in every training step the student's
    [contrast] flag, set for embedding extraction, is back to False at the
    supervised forward pass and when the step completes; the teacher's flag
    is set for embedding extraction and is still True when the step
    completes. *)
Theorem C9_student_flag_restored_teacher_flag_left_on optimizer step_name cw
    c_epochs end_epochs (env env' : TrainEnv) (batch : Batch) :
  train_step O optimizer step_name cw c_epochs end_epochs env batch = Ok env' ->
  calls env' = calls env ++ [get_embeddings_call Student true;
                             get_embeddings_call Teacher true;
                             forward_call Student false] /\
  contrast (student env') = false /\
  contrast (teacher env') = true.
Proof.
  intros H. apply train_step_inv in H as (weight & _ & H). cbn zeta in H.
  destruct H as (-> & -> & _ & _ & _ & _ & ->).
  split; [reflexivity | split; [| reflexivity]].
  unfold optimizer_step. destruct (_ && _); reflexivity.
Qed.

End FlagFacts.

Lemma C9_witness :
  exists env',
    train_step demo_oracle demo_optimizer "SSL-reliable-st1" 0 1 100 demo_env demo_batch
    = Ok env' /\
    calls env' = calls demo_env ++ [get_embeddings_call Student true;
                                    get_embeddings_call Teacher true;
                                    forward_call Student false] /\
    contrast (student env') = false /\
    contrast (teacher env') = true.
Proof.
  assert (E : exists env' : TrainEnv,
             train_step demo_oracle demo_optimizer "SSL-reliable-st1" 0 1 100
               demo_env demo_batch = Ok env') by (eexists; reflexivity).
  destruct E as (env' & E). exists env'. split; [exact E |].
  exact (C9_student_flag_restored_teacher_flag_left_on demo_oracle _ _ _ _ _ _ _ _ E).
Defined.

(** The claim as stated fails on the first step of a run: the teacher's
    flag is left enabled. *)
Lemma C9_counterexample :
  ~ (forall env' : TrainEnv,
       train_step demo_oracle demo_optimizer "SSL-reliable-st1" 0 1 100
         demo_env demo_batch = Ok env' ->
       contrast (student env') = false /\ contrast (teacher env') = false).
Proof.
  intros H.
  assert (E : exists env' : TrainEnv,
             train_step demo_oracle demo_optimizer "SSL-reliable-st1" 0 1 100
               demo_env demo_batch = Ok env' /\ contrast (teacher env') = true)
    by (eexists; split; reflexivity).
  destruct E as (env' & E & Hflag). apply H in E as [_ E]. congruence.
Qed.

(** ** Divisions *)

Section DivisionFacts.
Context {Hidden : Type} (O : Oracle Hidden).

Lemma select_PatchCL_weight_error step_name cw c_epochs end_epochs e :
  select_PatchCL_weight step_name cw c_epochs end_epochs = Raise e ->
  e = ZeroDivisionError.
Proof.
  unfold select_PatchCL_weight, get_dynamic_weight, py_truediv.
  destruct (String.eqb _ _); [| discriminate].
  destruct (Qeq_bool cw 0.0); [| discriminate].
  destruct (Qeq_bool _ 0); cbn.
  - congruence.
  - destruct (_ <? _)%Z; discriminate.
Qed.

Lemma batch_loop_error optimizer step_name cw c_epochs end_epochs
    (train_loader : list Batch) (env : TrainEnv) e :
  for_each (train_step O optimizer step_name cw c_epochs end_epochs) env train_loader
  = Raise e ->
  e = ZeroDivisionError.
Proof.
  revert env. induction train_loader as [| batch rest IH]; intros env; [discriminate |].
  cbn [for_each].
  destruct (train_step O optimizer step_name cw c_epochs end_epochs env batch)
    as [env1 | e1] eqn:E1; cbn.
  - apply IH.
  - intros [= <-]. unfold train_step in E1.
    destruct (select_PatchCL_weight step_name cw c_epochs end_epochs) as [weight | e0] eqn:E0;
      [discriminate |].
    cbn in E1. injection E1 as <-. eapply select_PatchCL_weight_error. exact E0.
Qed.

(** An epoch over an empty training loader, or with an empty validation
    loader, raises [ZeroDivisionError] and writes nothing. *)
Lemma train_epoch_empty_loader train_loader val_loader optimizer end_epochs
    step_name cw fold save_interval save_loss_model_path save_loss_path
    (env : TrainEnv) (c_epochs : Z) (w : World) :
  train_loader = [] \/ val_loader = [] ->
  train_epoch O train_loader val_loader optimizer end_epochs step_name cw
    fold save_interval save_loss_model_path save_loss_path env c_epochs w
  = (Raise ZeroDivisionError, w).
Proof.
  intros Hempty. unfold train_epoch, mbind, M_bind, lift.
  match goal with
  | |- context [for_each ?body ?env0 train_loader] =>
      destruct (for_each body env0 train_loader) as [env1 | e] eqn:E
  end.
  - unfold py_truediv at 1.
    destruct (Qeq_bool (inject_Z (Z.of_nat (length train_loader))) 0) eqn:En;
      [reflexivity |].
    unfold py_truediv at 1. rewrite En. unfold py_truediv at 1. rewrite En.
    destruct Hempty as [-> | ->]; [discriminate En |].
    rewrite validate_empty. reflexivity.
  - apply batch_loop_error in E as ->. reflexivity.
Qed.

Lemma DataLoader_short (dataset : list Sample) (k : nat) :
  DataLoader dataset (Z.of_nat (length dataset + S k)) = Ok [].
Proof.
  unfold DataLoader.
  destruct (Z.leb_spec (Z.of_nat (length dataset + S k)) 0); [lia |].
  rewrite Nat2Z.id, Nat.div_small by lia. reflexivity.
Qed.

(** C10: [validate] divides by the number of validation samples with no
    guard, so on a loader without batches - which is what [DataLoader] with
    [drop_last=True] gives for a subset smaller than one batch - it raises
    [ZeroDivisionError]; the per-epoch training averages divide by the batch
    count alike, so a run of the loop over an empty training loader, or with
    an empty validation loader, raises in its first epoch. *)
Theorem C10_unguarded_divisions :
  (forall (h : Hidden) (model : Model),
     validate O h model [] = Raise ZeroDivisionError) /\
  (forall (dataset : list Sample) (k : nat),
     DataLoader dataset (Z.of_nat (length dataset + S k)) = Ok []) /\
  (forall model teacher_model val_loader optimizer start_epochs (k : nat)
          step_name cw fold save_interval save_loss_model_path save_loss_path
          (h : Hidden) (w : World),
     (train O model teacher_model [] val_loader optimizer start_epochs
        (start_epochs + 1 + Z.of_nat k) step_name cw fold save_interval
        save_loss_model_path save_loss_path h w).1
     = Raise ZeroDivisionError) /\
  (forall model teacher_model train_loader optimizer start_epochs (k : nat)
          step_name cw fold save_interval save_loss_model_path save_loss_path
          (h : Hidden) (w : World),
     (train O model teacher_model train_loader [] optimizer start_epochs
        (start_epochs + 1 + Z.of_nat k) step_name cw fold save_interval
        save_loss_model_path save_loss_path h w).1
     = Raise ZeroDivisionError).
Proof.
  assert (Hrange : forall start (k : nat),
            range start (start + 1 + Z.of_nat k)
            = start :: range (start + 1) (start + 1 + Z.of_nat k)).
  { intros start k. unfold range.
    replace (start + 1 + Z.of_nat k - start)%Z with (Z.succ (Z.of_nat k)) by lia.
    rewrite seqZ_cons by lia. f_equal. f_equal. lia. }
  split; [apply validate_empty | split; [apply DataLoader_short | split]].
  - intros. unfold train. unfold mbind at 1, M_bind at 1. cbn [emit].
    rewrite Hrange. cbn [fmap list_fmap for_eachM].
    unfold mbind at 1, M_bind at 1. unfold mbind at 1, M_bind at 1.
    rewrite train_epoch_empty_loader by (left; reflexivity). reflexivity.
  - intros. unfold train. unfold mbind at 1, M_bind at 1. cbn [emit].
    rewrite Hrange. cbn [fmap list_fmap for_eachM].
    unfold mbind at 1, M_bind at 1. unfold mbind at 1, M_bind at 1.
    rewrite train_epoch_empty_loader by (right; reflexivity). reflexivity.
Qed.

End DivisionFacts.


(** ** Loaders and the reliable-sample selection *)

Lemma batches_length (n b : nat) (samples : list Sample) :
  length (batches n b samples) = n.
Proof. revert samples. induction n as [| n IH]; intros; cbn; auto. Qed.

(** A pass over a loader sees the first [n * b] samples, in order. *)
Lemma batches_concat (n b : nat) (samples : list Sample) :
  concat (batches n b samples) = take (n * b) samples.
Proof.
  revert samples. induction n as [| n IH]; intros samples; cbn [batches concat].
  - reflexivity.
  - rewrite IH. cbn [Nat.mul]. apply take_take_drop.
Qed.

Lemma DataLoader_inv (dataset : list Sample) (batch_size : Z) (loader : list Batch) :
  DataLoader dataset batch_size = Ok loader ->
  (0 < batch_size)%Z /\
  length loader = (length dataset / Z.to_nat batch_size)%nat /\
  seen_by loader
  = take (length dataset / Z.to_nat batch_size * Z.to_nat batch_size) dataset.
Proof.
  unfold DataLoader. destruct (Z.leb_spec batch_size 0); [discriminate |].
  intros [= <-]. split; [assumption | split].
  - apply batches_length.
  - apply batches_concat.
Qed.

Lemma PascalVOCDataset_length (labeled : bool) (lines : nat) :
  length (PascalVOCDataset labeled lines) = lines.
Proof. unfold PascalVOCDataset. rewrite length_fmap. apply length_seq. Qed.

Lemma PascalVOCDataset_take (labeled : bool) (lines m : nat) :
  (m <= lines)%nat ->
  take m (PascalVOCDataset labeled lines) = PascalVOCDataset labeled m.
Proof.
  intros Hm. unfold PascalVOCDataset. rewrite <- fmap_take, take_seq.
  rewrite Nat.min_l by exact Hm. reflexivity.
Qed.

Lemma PascalVOCDataset_NoDup (labeled : bool) (lines : nat) :
  NoDup (PascalVOCDataset labeled lines).
Proof.
  unfold PascalVOCDataset. apply NoDup_fmap_2; [| apply NoDup_seq].
  destruct labeled; intros i j [= ->]; reflexivity.
Qed.

Lemma elem_of_unlabeled (lines i : nat) :
  Unlabeled i ∈ PascalVOCDataset false lines <-> (i < lines)%nat.
Proof.
  unfold PascalVOCDataset. rewrite list_elem_of_fmap. split.
  - intros (j & [= ->] & Hj). apply elem_of_seq in Hj. lia.
  - intros Hi. exists i. split; [reflexivity | apply elem_of_seq; lia].
Qed.

Section SelectionFacts.
Context {Hidden : Type} (O : Oracle Hidden).

(** The selector splits the images it saw: nothing is added, dropped or
    repeated. *)
Lemma select_reliable_inv (model teacher_model : Model) (loader : list Batch)
    (w w' : World) (reliable remaining : list Sample) :
  select_reliable O model teacher_model loader w = (Ok (reliable, remaining), w') ->
  reliable ++ remaining ≡ₚ seen_by loader /\
  trace w' = trace w ++ [EvSelectReliable (seen_by loader)].
Proof.
  unfold select_reliable. unfold mbind, M_bind. cbn [emit]. unfold mret, M_ret.
  intros [= <- <- <-]. split; [| reflexivity].
  rewrite take_drop. apply merge_sort_Permutation.
Qed.

(** C5, as the code has it: the selection step splits the images which the
    unlabeled loader yields - with batch size [B], the first [(N // B) * B]
    of the [N] unlabeled samples - into a reliable and a remaining set with
    no sample in both; the last [N % B] samples are in neither, and the two
    sets make up the whole unlabeled set exactly when [B] divides [N]. *)
Theorem C5_selection_splits_what_the_loader_yields (model teacher_model : Model)
    (N : nat) (B : Z) (loader : list Batch) (w w' : World)
    (reliable remaining : list Sample) :
  DataLoader (PascalVOCDataset false N) B = Ok loader ->
  select_reliable O model teacher_model loader w = (Ok (reliable, remaining), w') ->
  let seen := (N / Z.to_nat B * Z.to_nat B)%nat in
  reliable ++ remaining ≡ₚ PascalVOCDataset false seen /\
  (length reliable + length remaining = seen)%nat /\
  (forall x, x ∈ reliable -> x ∉ remaining) /\
  (forall i, (seen <= i < N)%nat -> Unlabeled i ∉ reliable ++ remaining) /\
  (reliable ++ remaining ≡ₚ PascalVOCDataset false N <-> (N mod Z.to_nat B = 0)%nat).
Proof.
  intros Hloader Hsel seen.
  apply DataLoader_inv in Hloader as (HB & _ & Hseen).
  apply select_reliable_inv in Hsel as [Hperm _].
  rewrite PascalVOCDataset_length in Hseen. fold seen in Hseen.
  assert (Hle : (seen <= N)%nat).
  { unfold seen. rewrite Nat.mul_comm. apply Nat.Div0.mul_div_le. }
  rewrite PascalVOCDataset_take in Hseen by exact Hle.
  rewrite Hseen in Hperm. clear Hseen.
  assert (Hmod : (N = seen + N mod Z.to_nat B)%nat).
  { unfold seen. rewrite Nat.mul_comm. apply Nat.div_mod_eq. }
  split; [exact Hperm | split; [| split; [| split]]].
  - rewrite <- length_app, Hperm. apply PascalVOCDataset_length.
  - pose proof (PascalVOCDataset_NoDup false seen) as Hnd.
    rewrite <- Hperm in Hnd. apply NoDup_app in Hnd as (_ & Hdisj & _). exact Hdisj.
  - intros i Hi. rewrite Hperm, elem_of_unlabeled. lia.
  - split.
    + intros Hall. rewrite Hperm in Hall. apply Permutation_length in Hall.
      rewrite !PascalVOCDataset_length in Hall. lia.
    + intros Hz. rewrite Hperm. replace N with seen by lia. reflexivity.
Qed.

End SelectionFacts.

Lemma C5_witness :
  exists loader reliable remaining w',
    DataLoader (PascalVOCDataset false 32) 16 = Ok loader /\
    select_reliable demo_oracle demo_student demo_teacher loader demo_world
    = (Ok (reliable, remaining), w') /\
    reliable ++ remaining ≡ₚ PascalVOCDataset false 32 /\
    (length reliable + length remaining = 32)%nat /\
    (forall x, x ∈ reliable -> x ∉ remaining).
Proof.
  eexists _, _, _, _. split; [reflexivity | split; [reflexivity |]].
  destruct (C5_selection_splits_what_the_loader_yields demo_oracle demo_student
              demo_teacher 32 16 _ demo_world _ _ _ eq_refl eq_refl)
    as (Hperm & Hlen & Hdisj & _).
  split; [exact Hperm | split; [exact Hlen | exact Hdisj]].
Defined.

(** With the default batch size 16 and 20 unlabeled samples the selection
    step returns 16 samples in all; the samples 16 to 19 are lost. *)
Lemma C5_counterexample :
  exists loader reliable remaining w',
    DataLoader (PascalVOCDataset false 20) 16 = Ok loader /\
    select_reliable demo_oracle demo_student demo_teacher loader demo_world
    = (Ok (reliable, remaining), w') /\
    (length reliable + length remaining = 16)%nat /\
    (Unlabeled 16 ∉ reliable ++ remaining) /\
    not (reliable ++ remaining ≡ₚ PascalVOCDataset false 20).
Proof.
  eexists _, _, _, _. split; [reflexivity | split; [reflexivity |]].
  split; [reflexivity | split].
  - apply (proj1 (bool_decide_eq_false _)). vm_compute. reflexivity.
  - intros H. apply Permutation_length in H. vm_compute in H. discriminate H.
Qed.


(** ** What writes the teacher's parameters *)

Section TeacherWrites.
Context {Hidden : Type} (O : Oracle Hidden).








Lemma load_pretrained_model_inv (model teacher_model : Model)
    (save_model_path : string) (epoch : Z) (w w' : World)
    (model' teacher_model' : Model) :
  load_pretrained_model model teacher_model save_model_path epoch w
  = (Ok (model', teacher_model'), w') ->
  exists saved_model saved_teacher,
    ckpts w !! (save_model_path +:+ str epoch +:+ "-s.pth") = Some saved_model /\
    ckpts w !! (save_model_path +:+ str (epoch - 10) +:+ "-s.pth") = Some saved_teacher /\
    model' = set_training false (set_ident (next_ident w) saved_model) /\
    teacher_model' = set_training false (set_ident (S (next_ident w)) saved_teacher) /\
    ckpts w' = ckpts w /\ csvs w' = csvs w /\
    trace w' = trace w ++
      [EvPrint ("model_path:  " +:+ save_model_path +:+ str epoch +:+ "-s.pth");
       EvPrint ("teacher_model_path:  " +:+ save_model_path +:+ str (epoch - 10) +:+ "-s.pth");
       EvPrint "";
       EvTorchLoad (save_model_path +:+ str epoch +:+ "-s.pth");
       EvTorchLoad (save_model_path +:+ str (epoch - 10) +:+ "-s.pth")].
Proof.
  unfold load_pretrained_model, mbind, M_bind, print, emit, torch_load, mret, M_ret.
  cbn [ckpts csvs next_ident trace].
  destruct (ckpts w !! (save_model_path +:+ str epoch +:+ "-s.pth"))
    as [saved_model |] eqn:E1; [| discriminate].
  cbn [ckpts csvs next_ident trace].
  destruct (ckpts w !! (save_model_path +:+ str (epoch - 10) +:+ "-s.pth"))
    as [saved_teacher |] eqn:E2; [| discriminate].
  intros [= <- <- <-]. exists saved_model, saved_teacher.
  cbn. rewrite <- !app_assoc. repeat split.
Qed.


End TeacherWrites.




(** ** The stage orchestrator *)

Lemma M_bind_ok {A B : Type} (m : M A) (k : A -> M B) (w w' : World) (a : A) :
  m w = (Ok a, w') -> (m ≫= k) w = k a w'.
Proof. intros H. unfold mbind, M_bind. rewrite H. reflexivity. Qed.

Lemma M_bind_raise {A B : Type} (m : M A) (k : A -> M B) (w w' : World) (e : PyError) :
  m w = (Raise e, w') -> (m ≫= k) w = (Raise e, w').
Proof. intros H. unfold mbind, M_bind. rewrite H. reflexivity. Qed.

(** When what follows a statement always raises, so does the sequence. *)
Lemma M_bind_raises {A B : Type} (m : M A) (k : A -> M B) (w : World) :
  (forall a w1, exists e w', k a w1 = (Raise e, w')) ->
  exists e w', (m ≫= k) w = (Raise e, w').
Proof.
  intros Hk. unfold mbind, M_bind. destruct (m w) as [[a | e] w1]; eauto.
Qed.

Lemma print_run (line : string) (w : World) :
  print line w = (Ok tt, add_events w [EvPrint line]).
Proof. reflexivity. Qed.

Lemma add_events_app (w : World) (evs1 evs2 : list Event) :
  add_events (add_events w evs1) evs2 = add_events w (evs1 ++ evs2).
Proof. unfold add_events. cbn. rewrite app_assoc. reflexivity. Qed.

Lemma load_global_train_dataset (w : World) :
  load_global "train_dataset" w = (Raise (NameError "train_dataset"), w).
Proof. reflexivity. Qed.

Section OrchestratorFacts.
Context {Hidden : Type} (O : Oracle Hidden).

(** Stage 3 raises [NameError] whatever it is given: [train_dataset] is
    bound nowhere. *)
Lemma stages_3_4_NameError (args : Args) save_loss_model_path save_loss_path
    optimizer_pretrain fold valid_loader reliable_dataset model teacher_model
    (h : Hidden) (w : World) :
  stages_3_4 O args save_loss_model_path save_loss_path optimizer_pretrain fold
    valid_loader reliable_dataset model teacher_model h w
  = (Raise (NameError "train_dataset"),
     add_events w
       [EvPrint (banner "Total stage 3/6: Concat train_dataset reliable_dataset")]).
Proof. reflexivity. Qed.

Lemma fold_body_raises (args : Args) save_loss_model_path save_loss_path
    optimizer_pretrain labeled_dataset unlabeled_loader
    supervised_start_epoch supervised_end_epoch state item (w : World) :
  exists e w',
    fold_body O args save_loss_model_path save_loss_path optimizer_pretrain
      labeled_dataset unlabeled_loader supervised_start_epoch
      supervised_end_epoch state item w = (Raise e, w').
Proof.
  unfold fold_body. apply M_bind_raises. intros s w1.
  eexists _, _. apply M_bind_raise. apply stages_3_4_NameError.
Qed.

Lemma for_folds_raises {A S : Type} (body : S -> A -> M (Flow * S)) (s : S)
    (item : A) (rest : list A) (w : World) :
  (forall s x w, exists e w', body s x w = (Raise e, w')) ->
  exists e w', for_folds body s (item :: rest) w = (Raise e, w').
Proof.
  intros Hbody. cbn [for_folds]. destruct (Hbody s item w) as (e & w' & H).
  exists e, w'. apply M_bind_raise. exact H.
Qed.

Lemma KFold_split_inv shuffle (n_splits n_samples : nat) folds :
  KFold_split shuffle n_splits n_samples = Ok folds ->
  length folds = n_splits.
Proof.
  unfold KFold_split. destruct (n_samples <? n_splits)%nat; [discriminate |].
  intros [= <-]. rewrite length_fmap.
  unfold fold_sizes.
  generalize (shuffle (seq 0 n_samples)).
  generalize (fun i : nat => if (i <? n_samples mod n_splits)%nat
                             then S (n_samples / n_splits)
                             else (n_samples / n_splits)%nat).
  intros f. generalize 0%nat. induction n_splits as [| k IH]; intros start indices.
  - reflexivity.
  - cbn. f_equal. apply IH.
Qed.

(** [main] never returns: every run ends in an exception. *)
Lemma main_raises (args : Args) (labeled_lines unlabeled_lines : nat)
    (h : Hidden) (w : World) :
  exists e w', main O args labeled_lines unlabeled_lines h w = (Raise e, w').
Proof.
  unfold main. apply M_bind_raises. intros ms w1.
  apply M_bind_raises. intros unlabeled_loader w2.
  apply M_bind_raises. intros _ w3.
  unfold mbind at 1, M_bind at 1, lift at 1.
  destruct (KFold_split _ _ _) as [folds | e] eqn:E; [| eauto].
  apply KFold_split_inv in E.
  destruct folds as [| item rest]; [discriminate E |].
  unfold enumerate. cbn [length]. rewrite Nat2Z.inj_succ, seqZ_cons by lia.
  cbn [zip zip_with].
  match goal with
  | |- context [for_folds ?body ?s (?x :: ?l)] =>
      destruct (for_folds_raises body s x l w3) as (e & w' & Hf)
  end.
  - intros. apply fold_body_raises.
  - exists e, w'. apply M_bind_raise. exact Hf.
Qed.

Lemma DataLoader_run (dataset : list Sample) (batch_size : Z) :
  (0 < batch_size)%Z ->
  DataLoader dataset batch_size
  = Ok (batches (length dataset / Z.to_nat batch_size) (Z.to_nat batch_size) dataset).
Proof.
  intros HB. unfold DataLoader. destruct (Z.leb_spec batch_size 0); [lia | reflexivity].
Qed.

Lemma load_pretrained_model_run (model teacher_model : Model)
    (save_model_path : string) (epoch : Z) (w : World)
    (saved_model saved_teacher : Model) :
  ckpts w !! (save_model_path +:+ str epoch +:+ "-s.pth") = Some saved_model ->
  ckpts w !! (save_model_path +:+ str (epoch - 10) +:+ "-s.pth") = Some saved_teacher ->
  load_pretrained_model model teacher_model save_model_path epoch w
  = (Ok (set_training false (set_ident (next_ident w) saved_model),
         set_training false (set_ident (S (next_ident w)) saved_teacher)),
     add_objects
       (add_events w
          [EvPrint ("model_path:  " +:+ save_model_path +:+ str epoch +:+ "-s.pth");
           EvPrint ("teacher_model_path:  " +:+ save_model_path
                      +:+ str (epoch - 10) +:+ "-s.pth");
           EvPrint "";
           EvTorchLoad (save_model_path +:+ str epoch +:+ "-s.pth");
           EvTorchLoad (save_model_path +:+ str (epoch - 10) +:+ "-s.pth")])
       2).
Proof.
  intros E1 E2.
  unfold load_pretrained_model, mbind, M_bind, print, emit, torch_load, mret, M_ret.
  cbn [ckpts csvs next_ident trace]. rewrite E1.
  cbn [ckpts csvs next_ident trace]. rewrite E2.
  unfold add_objects, add_events. cbn. rewrite <- !app_assoc. reflexivity.
Qed.



End OrchestratorFacts.


Section GuardFacts.
Context {Hidden : Type} (O : Oracle Hidden).


(** C7: stage 3 cannot build the combined dataset: it reads the name
    [train_dataset], which is bound nowhere, and raises [NameError] whatever
    the earlier stages produced; so no run of [main] gets past stage 3 of its
    first fold, and every run ends in an exception. *)
Theorem C7_stage_3_raises_NameError :
  (forall (args : Args) save_loss_model_path save_loss_path optimizer_pretrain
          fold valid_loader reliable_dataset model teacher_model (h : Hidden)
          (w : World),
     stages_3_4 O args save_loss_model_path save_loss_path optimizer_pretrain fold
       valid_loader reliable_dataset model teacher_model h w
     = (Raise (NameError "train_dataset"),
        add_events w
          [EvPrint (banner "Total stage 3/6: Concat train_dataset reliable_dataset")])) /\
  (forall (args : Args) (labeled_lines unlabeled_lines : nat) (h : Hidden) (w : World),
     exists e w', main O args labeled_lines unlabeled_lines h w = (Raise e, w')).
Proof.
  split.
  - intros. apply stages_3_4_NameError.
  - intros. apply main_raises.
Qed.

End GuardFacts.

(** Runs of [main] on 20 labeled and 20 unlabeled samples with batch size 4:
    with checkpoints where stage 2 looks for them the run ends in the
    [NameError] of stage 3; from an empty [output/] directory it ends in
    stage 2, which looks for the checkpoint of epoch 100 outside the [fold/]
    directory that [train] saved it in. *)
Example main_ends_in_NameError :
  (main demo_oracle demo_args 20 20 tt demo_disk).1
  = Raise (NameError "train_dataset").
Proof. vm_compute. reflexivity. Qed.

Example main_from_empty_disk :
  (main demo_oracle demo_args 20 20 tt empty_disk).1
  = Raise (FileNotFoundError "output/14-0.5/model_supervised-Pretraining_100-s.pth").
Proof. vm_compute. reflexivity. Qed.

(** With the default batch size 16 and 20 labeled samples each validation
    fold holds 4 samples, the validation loader is empty and the first epoch
    raises. *)
Example main_small_validation_fold :
  (main demo_oracle default_args 20 20 tt demo_disk).1 = Raise ZeroDivisionError.
Proof. vm_compute. reflexivity. Qed.



(** * Further properties *)

(** ** The weight schedule for any number of epochs *)

Lemma get_dynamic_weight_long_run (epoch end_epochs : Z) :
  (end_epochs < 0 \/ 10 <= end_epochs)%Z ->
  get_dynamic_weight epoch end_epochs
  = Ok (if (epoch <? 10)%Z then 0.1
        else 0.1 + inject_Z (epoch / 10)
                   * ((1.0 - 0.1) / inject_Z (end_epochs / 10)))%Q.
Proof.
  intros H. unfold get_dynamic_weight, py_truediv.
  destruct (Qeq_bool (inject_Z (end_epochs / 10)) 0) eqn:E.
  - apply Qeq_bool_iff in E. unfold Qeq in E. cbn in E.
    assert (end_epochs / 10 = 0)%Z by lia.
    apply Z.div_small_iff in H0; lia.
  - cbn. destruct (epoch <? 10)%Z; reflexivity.
Qed.

(** The schedule raises exactly when the run is shorter than ten epochs:
    then [end_epochs // 10] is 0 and the increment cannot be computed, even
    for the epochs below 10, whose weight does not use it. *)
Theorem get_dynamic_weight_raises_iff (epoch end_epochs : Z) :
  (get_dynamic_weight epoch end_epochs = Raise ZeroDivisionError
   <-> (0 <= end_epochs < 10)%Z) /\
  (is_Ok (get_dynamic_weight epoch end_epochs) = false
   <-> (0 <= end_epochs < 10)%Z).
Proof.
  destruct (Z_lt_dec end_epochs 0) as [Hneg | Hnn];
    [| destruct (Z_lt_dec end_epochs 10) as [Hsmall | Hbig]].
  - rewrite get_dynamic_weight_long_run by lia. cbn.
    split; split; try discriminate; lia.
  - rewrite get_dynamic_weight_short_run by lia. cbn.
    split; split; auto; lia.
  - rewrite get_dynamic_weight_long_run by lia. cbn.
    split; split; try discriminate; lia.
Qed.






(** ** How a call of the training loop can end *)

Section TrainOutcomes.
Context {Hidden : Type} (O : Oracle Hidden).

Lemma select_PatchCL_weight_ok_iff step_name cw c_epochs end_epochs :
  (exists weight, select_PatchCL_weight step_name cw c_epochs end_epochs = Ok weight)
  <-> ~ (step_name = "supervised-Pretraining" /\ (cw == 0)%Q /\ (0 <= end_epochs < 10)%Z).
Proof.
  unfold select_PatchCL_weight.
  destruct (String.eqb_spec step_name "supervised-Pretraining") as [-> | Hne].
  - destruct (Qeq_bool cw 0.0) eqn:E.
    + apply Qeq_bool_zero in E.
      destruct (Z_lt_dec end_epochs 0) as [Hneg | Hnn];
        [| destruct (Z_lt_dec end_epochs 10) as [Hsmall | Hbig]].
      * rewrite get_dynamic_weight_long_run by lia. split; [lia | eauto].
      * rewrite get_dynamic_weight_short_run by lia.
        split; [intros [? ?]; discriminate | intros H; exfalso; apply H; repeat split; auto; lia].
      * rewrite get_dynamic_weight_long_run by lia. split; [lia | eauto].
    + apply Qeq_bool_neq in E. split; [| eauto].
      intros _ (_ & Hz & _). apply E. rewrite Hz. reflexivity.
  - split; [| eauto]. intros _ (H & _). contradiction.
Qed.

(** After a batch loop over at least one batch, [PatchCL_weight] is bound and
    the sums of the epoch satisfy
    [epoch_t_loss = total_t_supervised_loss + weight * total_t_contrastive_loss]
    relative to their values before the loop. *)
Lemma batch_loop_inv optimizer step_name cw c_epochs end_epochs
    (train_loader : list Batch) (env env' : TrainEnv) :
  for_each (train_step O optimizer step_name cw c_epochs end_epochs) env train_loader
  = Ok env' ->
  train_loader <> [] ->
  exists weight,
    select_PatchCL_weight step_name cw c_epochs end_epochs = Ok weight /\
    PatchCL_weight env' = Some weight /\
    (epoch_t_loss env' - epoch_t_loss env
     == (total_t_supervised_loss env' - total_t_supervised_loss env)
        + weight * (total_t_contrastive_loss env' - total_t_contrastive_loss env))%Q /\
    contrast (student env') = false /\
    contrast (teacher env') = true /\
    training (student env') = true /\
    training (teacher env') = true /\
    ident (student env') = ident (student env) /\
    requires_grad (student env') = requires_grad (student env).
Proof.
  revert env. induction train_loader as [| batch rest IH]; intros env H Hne;
    [contradiction |].
  cbn [for_each] in H.
  destruct (train_step O optimizer step_name cw c_epochs end_epochs env batch)
    as [env1 | e] eqn:E1; [| discriminate].
  cbn in H.
  apply train_step_inv in E1 as (weight & Hw & E1). cbn zeta in E1.
  destruct E1 as (Hs & Ht & Hl & Hsup & Hpc & Hpw & _).
  assert (Hflags : contrast (student env1) = false /\ contrast (teacher env1) = true /\
                   training (student env1) = true /\ training (teacher env1) = true /\
                   ident (student env1) = ident (student env) /\
                   requires_grad (student env1) = requires_grad (student env)).
  { rewrite Hs, Ht. unfold optimizer_step. destruct (_ && _); repeat split. }
  destruct rest as [| batch' rest'].
  - injection H as <-. exists weight.
    split; [exact Hw | split; [exact Hpw | split; [| exact Hflags]]].
    rewrite Hl, Hsup, Hpc. ring.
  - destruct (IH env1 H ltac:(discriminate)) as (weight' & Hw' & Hpw' & Hsum & Hf').
    rewrite Hw in Hw'. injection Hw' as <-.
    exists weight. split; [exact Hw | split; [exact Hpw' | split]].
    + rewrite Hl, Hsup, Hpc in Hsum. lra.
    + destruct Hflags as (_ & _ & _ & _ & Hi & Hg).
      destruct Hf' as (? & ? & ? & ? & Hi' & Hg').
      repeat split; try assumption; congruence.
Qed.

(** Everything an epoch that ran to its end did. *)
Lemma train_epoch_inv_full train_loader val_loader optimizer end_epochs step_name cw
    fold save_interval save_loss_model_path save_loss_path
    (env env' : TrainEnv) (c_epochs : Z) (w w' : World) :
  train_epoch O train_loader val_loader optimizer end_epochs step_name cw
    fold save_interval save_loss_model_path save_loss_path env c_epochs w
  = (Ok env', w') ->
  exists env1 vr weight row,
    for_each (train_step O optimizer step_name cw c_epochs end_epochs)
      {| student := student env; teacher := teacher env; hidden := hidden env;
         epoch_t_loss := 0; total_t_supervised_loss := 0;
         total_t_contrastive_loss := 0;
         PatchCL_weight := PatchCL_weight env; calls := calls env |}
      train_loader = Ok env1 /\
    train_loader <> [] /\
    validate O (hidden env1) (student env1) val_loader = Ok vr /\
    select_PatchCL_weight step_name cw c_epochs end_epochs = Ok weight /\
    save_interval <> 0%Z /\
    (t_total_loss row
     == t_supervised_loss row + row_PatchCL_weight row * t_contrastive_loss row)%Q /\
    student env' = set_contrast false (set_training false (student env1)) /\
    teacher env' = teacher env1 /\
    w' = after_epoch w
           (save_loss_path +:+ "_" +:+ step_name +:+ "-fold" +:+ str fold +:+ ".csv")
           row
           (if (c_epochs mod save_interval =? 0)%Z
            then Some (save_loss_model_path +:+ "/fold/" +:+ str fold +:+ "/model_"
                         +:+ step_name +:+ "_" +:+ str c_epochs +:+ "-s.pth",
                       student env')
            else None).
Proof.
  unfold train_epoch, mbind, M_bind, lift, mret, M_ret.
  match goal with
  | |- context [for_each ?body ?env0 train_loader] =>
      destruct (for_each body env0 train_loader) as [env1 | e] eqn:E
  end; [| discriminate].
  destruct (py_truediv (epoch_t_loss env1) _) as [a1 | e] eqn:E1; [| discriminate].
  destruct (py_truediv (total_t_supervised_loss env1) _) as [a2 | e] eqn:E2;
    [| discriminate].
  destruct (py_truediv (total_t_contrastive_loss env1) _) as [a3 | e] eqn:E3;
    [| discriminate].
  destruct (validate O (hidden env1) (student env1) val_loader) as [vr | e] eqn:Ev;
    [| discriminate].
  destruct (PatchCL_weight env1) as [weight |] eqn:Epw; [| discriminate].
  cbn [save_loss]. unfold py_mod.
  destruct (save_interval =? 0)%Z eqn:Esi; [discriminate |].
  intros H.
  assert (Hne : train_loader <> []) by (intros ->; discriminate).
  destruct (batch_loop_inv _ _ _ _ _ _ _ _ E Hne) as (weight' & Hw & Hpw & Hsum & _).
  rewrite Epw in Hpw. injection Hpw as <-. cbn in Hsum.
  apply py_truediv_ok in E1 as [Hn ->].
  apply py_truediv_ok in E2 as [_ ->].
  apply py_truediv_ok in E3 as [_ ->].
  pose proof (validate_contrast O _ _ _ _ Ev) as Hvr.
  exists env1, vr, weight.
  eexists {| t_total_loss := _; t_supervised_loss := _; t_contrastive_loss := _;
             t_metrics := _; v_total_loss := _; v_metrics := _;
             row_PatchCL_weight := _ |}.
  split; [reflexivity | split; [exact Hne | split; [exact Ev | split; [exact Hw |]]]].
  split; [apply Z.eqb_neq; exact Esi |].
  assert (He : (epoch_t_loss env1
                == total_t_supervised_loss env1
                   + weight * total_t_contrastive_loss env1)%Q) by lra.
  destruct (c_epochs mod save_interval =? 0)%Z; cbn in H; injection H as <- <-;
    (split; cycle 1);
    [ split; [exact Hvr |]; split; [reflexivity |];
      unfold after_epoch, rows; cbn; rewrite <- ?app_assoc; reflexivity
    | cbn [t_total_loss t_supervised_loss t_contrastive_loss row_PatchCL_weight];
      rewrite He; field; exact Hn
    | split; [exact Hvr |]; split; [reflexivity |];
      unfold after_epoch, rows; cbn; rewrite <- ?app_assoc; reflexivity
    | cbn [t_total_loss t_supervised_loss t_contrastive_loss row_PatchCL_weight];
      rewrite He; field; exact Hn ].
Qed.

(** What the epochs of a call that ran to its end leave behind: the rows
    appended to the loss log, the checkpoints, and the modes of the models. *)
Lemma epochs_inv_full train_loader val_loader optimizer end_epochs step_name cw
    fold save_interval save_loss_model_path save_loss_path
    (epochs : list Z) (env env' : TrainEnv) (w w' : World) :
  let filename :=
    save_loss_path +:+ "_" +:+ step_name +:+ "-fold" +:+ str fold +:+ ".csv" in
  for_eachM (train_epoch O train_loader val_loader optimizer end_epochs step_name cw
               fold save_interval save_loss_model_path save_loss_path)
    env epochs w = (Ok env', w') ->
  (exists new_rows,
     rows w' filename = rows w filename ++ new_rows /\
     length new_rows = length epochs /\
     Forall (fun row =>
               (t_total_loss row
                == t_supervised_loss row
                   + row_PatchCL_weight row * t_contrastive_loss row)%Q) new_rows) /\
  (forall p m, ckpts w' !! p = Some m ->
     ckpts w !! p = Some m \/
     (training m = false /\ contrast m = false /\
      ident m = ident (student env) /\
      requires_grad m = requires_grad (student env))) /\
  ident (student env') = ident (student env) /\
  requires_grad (student env') = requires_grad (student env) /\
  (epochs <> [] ->
   training (student env') = false /\ contrast (student env') = false /\
   training (teacher env') = true /\ contrast (teacher env') = true).
Proof.
  intros filename. revert env w.
  induction epochs as [| c_epochs epochs IH]; intros env w H.
  - cbn in H. injection H as <- <-.
    split; [exists []; rewrite app_nil_r; auto |].
    split; [auto | split; [reflexivity | split; [reflexivity | congruence]]].
  - cbn [for_eachM] in H. unfold mbind at 1, M_bind at 1 in H.
    destruct (train_epoch _ _ _ _ _ _ _ _ _ _ _ _ _ w) as [[env1 | e] w1] eqn:E;
      [| discriminate].
    apply train_epoch_inv_full in E
      as (envb & vr & weight & row & Hloop & Hne & _ & _ & _ & Hrow & Hs & Ht & ->).
    apply batch_loop_inv in Hloop as (_ & _ & _ & _ & _ & Hct & _ & Htt & Hid & Hrg);
      [| exact Hne].
    cbn in Hid, Hrg.
    assert (Hs1 : training (student env1) = false /\ contrast (student env1) = false /\
                  ident (student env1) = ident (student env) /\
                  requires_grad (student env1) = requires_grad (student env)).
    { rewrite Hs. cbn. auto. }
    destruct Hs1 as (Htr1 & Hc1 & Hid1 & Hrg1).
    pose proof H as Hrun.
    apply IH in H as ((news & Hrows & Hlen & Hall) & Hck & Hid' & Hrg' & Hflags).
    clear IH. fold filename in Hrows.
    split; [| split; [| split; [| split]]].
    + exists (row :: news). split; [| split].
      * rewrite Hrows. unfold rows at 1. cbn. rewrite lookup_insert_eq. cbn.
        rewrite <- app_assoc. reflexivity.
      * cbn. rewrite Hlen. reflexivity.
      * constructor; assumption.
    + intros p m Hm. apply Hck in Hm as [Hm | Hm].
      * cbn in Hm. destruct (c_epochs mod save_interval =? 0)%Z; [| left; exact Hm].
        match type of Hm with
        | <[?q := _]> _ !! _ = _ => destruct (decide (p = q)) as [-> | Hq]
        end.
        -- rewrite lookup_insert_eq in Hm. injection Hm as <-. right. auto.
        -- rewrite lookup_insert_ne in Hm by congruence. left. exact Hm.
      * right. destruct Hm as (? & ? & ? & ?). repeat split; congruence.
    + congruence.
    + congruence.
    + intros _. destruct epochs as [| c' epochs'].
      * cbn in Hrun. injection Hrun as <- <-. rewrite Ht. auto.
      * apply Hflags. discriminate.
Qed.

Lemma py_truediv_error (x y : Q) (e : PyError) :
  py_truediv x y = Raise e -> e = ZeroDivisionError.
Proof. unfold py_truediv. destruct (Qeq_bool y 0); congruence. Qed.

Lemma validate_error (h : Hidden) (model : Model) (val_loader : list Batch) e :
  validate O h model val_loader = Raise e -> e = ZeroDivisionError.
Proof.
  unfold validate. destruct (py_truediv _ _) as [? | e0] eqn:E; [discriminate |].
  cbn. intros [= <-]. eapply py_truediv_error. exact E.
Qed.

Lemma validate_inv (h : Hidden) (model : Model) (val_loader : list Batch) r :
  validate O h model val_loader = Ok r -> concat val_loader <> [].
Proof.
  unfold validate. destruct (py_truediv _ _) as [q | e0] eqn:E; [| discriminate].
  intros _ Hnil. apply py_truediv_ok in E as [Hn _]. apply Hn.
  rewrite validate_sums, Hnil. reflexivity.
Qed.

(** An epoch raises nothing but [ZeroDivisionError]; in particular the read
    of [PatchCL_weight] at line 228 never finds the name unbound, because an
    empty training loader already fails the division at line 204. *)
Lemma train_epoch_error train_loader val_loader optimizer end_epochs step_name cw
    fold save_interval save_loss_model_path save_loss_path
    (env : TrainEnv) (c_epochs : Z) (w w' : World) (e : PyError) :
  train_epoch O train_loader val_loader optimizer end_epochs step_name cw
    fold save_interval save_loss_model_path save_loss_path env c_epochs w
  = (Raise e, w') ->
  e = ZeroDivisionError.
Proof.
  unfold train_epoch, mbind, M_bind, lift, mret, M_ret.
  match goal with
  | |- context [for_each ?body ?env0 train_loader] =>
      destruct (for_each body env0 train_loader) as [env1 | e1] eqn:E
  end.
  - destruct (py_truediv (epoch_t_loss env1) _) as [a1 | e1] eqn:E1;
      [| intros [= <- _]; eapply py_truediv_error; exact E1].
    destruct (py_truediv (total_t_supervised_loss env1) _) as [a2 | e2] eqn:E2;
      [| intros [= <- _]; eapply py_truediv_error; exact E2].
    destruct (py_truediv (total_t_contrastive_loss env1) _) as [a3 | e3] eqn:E3;
      [| intros [= <- _]; eapply py_truediv_error; exact E3].
    destruct (validate O (hidden env1) (student env1) val_loader) as [vr | ev] eqn:Ev;
      [| intros [= <- _]; eapply validate_error; exact Ev].
    assert (Hne : train_loader <> []) by (intros ->; discriminate).
    destruct (batch_loop_inv _ _ _ _ _ _ _ _ E Hne) as (weight & _ & -> & _).
    cbn [save_loss]. unfold py_mod.
    destruct (save_interval =? 0)%Z; [intros [= <- _]; reflexivity |].
    destruct (c_epochs mod save_interval =? 0)%Z; cbn; discriminate.
  - intros [= <- _]. eapply batch_loop_error. exact E.
Qed.

Lemma epochs_error train_loader val_loader optimizer end_epochs step_name cw
    fold save_interval save_loss_model_path save_loss_path
    (epochs : list Z) (env : TrainEnv) (w w' : World) (e : PyError) :
  for_eachM (train_epoch O train_loader val_loader optimizer end_epochs step_name cw
               fold save_interval save_loss_model_path save_loss_path)
    env epochs w = (Raise e, w') ->
  e = ZeroDivisionError.
Proof.
  revert env w. induction epochs as [| c epochs IH]; intros env w; [discriminate |].
  cbn [for_eachM]. unfold mbind at 1, M_bind at 1.
  destruct (train_epoch _ _ _ _ _ _ _ _ _ _ _ _ _ w) as [[env1 | e1] w1] eqn:E.
  - apply IH.
  - intros [= <- _]. eapply train_epoch_error. exact E.
Qed.


(** Whatever the loaders and the arguments, a call of [train] that does not
    return raises [ZeroDivisionError]: from the schedule (fewer than ten
    epochs), from the averages over an empty training loader, from
    [validate] over an empty validation loader, or from [% save_interval]
    with [save_interval = 0].  The read of [PatchCL_weight] at line 228
    never raises. *)
Theorem train_raises_only_ZeroDivisionError model teacher_model train_loader
    val_loader optimizer start_epochs end_epochs step_name cw fold save_interval
    save_loss_model_path save_loss_path (h : Hidden) (w w' : World) (e : PyError) :
  train O model teacher_model train_loader val_loader optimizer start_epochs
    end_epochs step_name cw fold save_interval save_loss_model_path
    save_loss_path h w = (Raise e, w') ->
  e = ZeroDivisionError.
Proof.
  unfold train. unfold mbind at 1, M_bind at 1. cbn [emit].
  unfold mbind at 1, M_bind at 1.
  match goal with
  | |- context [for_eachM ?body ?env ?epochs ?w0] =>
      destruct (for_eachM body env epochs w0) as [[env' | e1] w1] eqn:E
  end; [discriminate |].
  intros [= <- _]. eapply epochs_error. exact E.
Qed.

Lemma train_ok_iff model teacher_model train_loader val_loader optimizer
    start_epochs end_epochs step_name cw fold save_interval
    save_loss_model_path save_loss_path (h : Hidden) (w : World) :
  (start_epochs < end_epochs)%Z ->
  (exists r w',
     train O model teacher_model train_loader val_loader optimizer start_epochs
       end_epochs step_name cw fold save_interval save_loss_model_path
       save_loss_path h w = (Ok r, w'))
  <-> train_loader <> [] /\ concat val_loader <> [] /\ save_interval <> 0%Z /\
      ~ (step_name = "supervised-Pretraining" /\ (cw == 0)%Q /\
         (0 <= end_epochs < 10)%Z).
Proof.
  intros Hlt. split.
  - intros (r & w' & H). revert H.
    unfold train. unfold mbind at 1, M_bind at 1. cbn [emit].
    unfold mbind at 1, M_bind at 1. unfold range.
    replace (end_epochs - start_epochs)%Z
      with (Z.succ (Z.pred (end_epochs - start_epochs))) by lia.
    rewrite seqZ_cons by lia. cbn [fmap list_fmap for_eachM].
    unfold mbind at 1, M_bind at 1.
    destruct (train_epoch _ _ _ _ _ _ _ _ _ _ _ _ _ _) as [[env1 | e1] w1] eqn:E;
      [| discriminate].
    intros _.
    apply train_epoch_inv_full in E
      as (envb & vr & weight & row & _ & Hne & Hv & Hw & Hsi & _).
    split; [exact Hne | split; [eapply validate_inv; exact Hv | split; [exact Hsi |]]].
    eapply (proj1 (select_PatchCL_weight_ok_iff _ _ _ _)). eauto.
  - intros (Htl & Hvl & Hsi & Hw).
    apply train_ok; try assumption.
    intros c. apply (proj2 (select_PatchCL_weight_ok_iff _ _ _ _)). exact Hw.
Qed.

(** A call over at least one epoch returns exactly when the training loader
    has a batch, the validation loader has a sample, [save_interval] is not
    0 and the weight can be computed, that is, unless the stage is
    "supervised-Pretraining" with a zero override and fewer than ten
    epochs. *)
Theorem train_returns_iff model teacher_model train_loader val_loader optimizer
    start_epochs end_epochs step_name cw fold save_interval
    save_loss_model_path save_loss_path (h : Hidden) (w : World) :
  (start_epochs < end_epochs)%Z ->
  (exists r w',
     train O model teacher_model train_loader val_loader optimizer start_epochs
       end_epochs step_name cw fold save_interval save_loss_model_path
       save_loss_path h w = (Ok r, w'))
  <-> train_loader <> [] /\ concat val_loader <> [] /\ save_interval <> 0%Z /\
      ~ (step_name = "supervised-Pretraining" /\ (cw == 0)%Q /\
         (0 <= end_epochs < 10)%Z).
Proof.
  intros Hlt. split.
  - intros (r & w' & H). revert H.
    unfold train. unfold mbind at 1, M_bind at 1. cbn [emit].
    unfold mbind at 1, M_bind at 1. unfold range.
    replace (end_epochs - start_epochs)%Z
      with (Z.succ (Z.pred (end_epochs - start_epochs))) by lia.
    rewrite seqZ_cons by lia. cbn [fmap list_fmap for_eachM].
    unfold mbind at 1, M_bind at 1.
    destruct (train_epoch _ _ _ _ _ _ _ _ _ _ _ _ _ _) as [[env1 | e1] w1] eqn:E;
      [| discriminate].
    intros _.
    apply train_epoch_inv_full in E
      as (envb & vr & weight & row & _ & Hne & Hv & Hw & Hsi & _).
    split; [exact Hne | split; [eapply validate_inv; exact Hv | split; [exact Hsi |]]].
    eapply (proj1 (select_PatchCL_weight_ok_iff _ _ _ _)). eauto.
  - intros (Htl & Hvl & Hsi & Hw).
    apply train_ok; try assumption.
    intros c. apply (proj2 (select_PatchCL_weight_ok_iff _ _ _ _)). exact Hw.
Qed.


(** Every checkpoint a call of [train] writes holds the student as
    [validate] left it, in evaluation mode and with [contrast] off, and it is
    the object [train] was given; after at least one epoch the student is
    returned in that state, while the teacher is returned in training mode
    with [contrast] on. *)
Theorem train_saves_and_returns_the_student_in_eval_mode model teacher_model
    train_loader val_loader optimizer start_epochs end_epochs step_name cw fold
    save_interval save_loss_model_path save_loss_path (h : Hidden) (w w' : World) r :
  train O model teacher_model train_loader val_loader optimizer start_epochs
    end_epochs step_name cw fold save_interval save_loss_model_path
    save_loss_path h w = (Ok r, w') ->
  (forall p m, ckpts w' !! p = Some m ->
     ckpts w !! p = Some m \/
     (training m = false /\ contrast m = false /\ ident m = ident model /\
      requires_grad m = requires_grad model)) /\
  ident r.1.1 = ident model /\
  ((start_epochs < end_epochs)%Z ->
   training r.1.1 = false /\ contrast r.1.1 = false /\
   training r.1.2 = true /\ contrast r.1.2 = true).
Proof.
  unfold train. unfold mbind at 1, M_bind at 1. cbn [emit].
  unfold mbind at 1, M_bind at 1.
  match goal with
  | |- context [for_eachM ?body ?env ?epochs ?w0] =>
      destruct (for_eachM body env epochs w0) as [[env' | e1] w1] eqn:E
  end; [| discriminate].
  intros [= <- <-].
  apply epochs_inv_full in E as (_ & Hck & Hid & _ & Hflags).
  cbn in Hck, Hid. cbn [fst snd].
  split; [exact Hck | split; [exact Hid |]].
  intros Hlt. apply Hflags. unfold range.
  replace (end_epochs - start_epochs)%Z
    with (Z.succ (Z.pred (end_epochs - start_epochs))) by lia.
  rewrite seqZ_cons by lia. discriminate.
Qed.

(** With [save_interval = 0] and everything else in order the first epoch
    trains, validates and appends its row to the loss log, and only then
    raises, at [c_epochs % save_interval]; no checkpoint is written. *)
Theorem train_zero_save_interval_logs_one_row model teacher_model train_loader
    val_loader optimizer start_epochs end_epochs step_name cw fold
    save_loss_model_path save_loss_path (h : Hidden) (w : World) :
  (start_epochs < end_epochs)%Z ->
  train_loader <> [] ->
  concat val_loader <> [] ->
  ~ (step_name = "supervised-Pretraining" /\ (cw == 0)%Q /\ (0 <= end_epochs < 10)%Z) ->
  let filename :=
    save_loss_path +:+ "_" +:+ step_name +:+ "-fold" +:+ str fold +:+ ".csv" in
  exists row w',
    train O model teacher_model train_loader val_loader optimizer start_epochs
      end_epochs step_name cw fold 0 save_loss_model_path save_loss_path h w
    = (Raise ZeroDivisionError, w') /\
    rows w' filename = rows w filename ++ [row] /\
    ckpts w' = ckpts w /\
    trace w' = trace w ++ [EvTrain step_name; EvSaveLoss filename].
Proof.
  intros Hlt Htl Hvl Hw filename.
  apply (proj2 (select_PatchCL_weight_ok_iff _ _ (start_epochs + 1) _)) in Hw
    as [weight Hw].
  unfold train. unfold mbind at 1, M_bind at 1. cbn [emit].
  unfold mbind at 1, M_bind at 1. unfold range.
  replace (end_epochs - start_epochs)%Z
    with (Z.succ (Z.pred (end_epochs - start_epochs))) by lia.
  rewrite seqZ_cons by lia. cbn [fmap list_fmap for_eachM].
  unfold mbind at 1, M_bind at 1.
  unfold train_epoch.
  match goal with
  | |- context [for_each ?body ?env0 train_loader] =>
      destruct (batch_loop_ok O optimizer _ _ _ _ _ train_loader env0 Hw)
        as (env1 & H1 & Hlast)
  end.
  destruct (Hlast Htl) as (Hweight & _).
  unfold mbind, M_bind, lift, mret, M_ret. rewrite H1.
  assert (Hn : forall x, exists a,
             py_truediv x (inject_Z (Z.of_nat (length train_loader))) = Ok a).
  { intros x. unfold py_truediv. destruct (Qeq_bool _ 0) eqn:E; [| eauto].
    apply Qeq_bool_iff in E. unfold Qeq in E. cbn in E.
    destruct train_loader; [contradiction | cbn in E; lia]. }
  destruct (Hn (epoch_t_loss env1)) as [a1 ->].
  destruct (Hn (total_t_supervised_loss env1)) as [a2 ->].
  destruct (Hn (total_t_contrastive_loss env1)) as [a3 ->].
  destruct (validate_ok O (hidden env1) (student env1) val_loader Hvl) as [vr ->].
  rewrite Hweight. cbn [save_loss]. unfold py_mod. cbn.
  eexists _, _. split; [reflexivity |]. unfold rows. cbn.
  rewrite lookup_insert_eq. cbn. rewrite <- app_assoc. repeat split.
Qed.

End TrainOutcomes.

Lemma train_raises_only_ZeroDivisionError_witness :
  exists e w',
    train demo_oracle demo_student demo_teacher demo_train_loader [] demo_optimizer
      0 2 "SSL-reliable-st1" 0 0 2 "output/14-0" "output/loss_14-0" tt demo_world
    = (Raise e, w') /\ e = ZeroDivisionError.
Proof.
  assert (Hko : is_Ok (train demo_oracle demo_student demo_teacher demo_train_loader
                         [] demo_optimizer 0 2 "SSL-reliable-st1" 0 0 2
                         "output/14-0" "output/loss_14-0" tt demo_world).1 = false)
    by (vm_compute; reflexivity).
  destruct (train demo_oracle demo_student demo_teacher demo_train_loader []
              demo_optimizer 0 2 "SSL-reliable-st1" 0 0 2 "output/14-0"
              "output/loss_14-0" tt demo_world) as [[r | e] w'] eqn:E;
    [discriminate Hko |].
  exists e, w'. split; [reflexivity |].
  exact (train_raises_only_ZeroDivisionError demo_oracle _ _ _ _ _ _ _ _ _ _ _ _ _ _ _ _ _ E).
Defined.

Lemma train_returns_iff_witness :
  (0 < 2)%Z /\
  ((exists r w',
      train demo_oracle demo_student demo_teacher demo_train_loader demo_val_loader
        demo_optimizer 0 2 "supervised-Pretraining" 0 0 2 "output/14-0"
        "output/loss_14-0" tt demo_world = (Ok r, w'))
   <-> demo_train_loader <> [] /\ concat demo_val_loader <> [] /\ 2%Z <> 0%Z /\
       ~ ("supervised-Pretraining" = "supervised-Pretraining" /\ (0 == 0)%Q /\
          (0 <= 2 < 10)%Z)).
Proof.
  split; [lia |].
  apply (train_returns_iff demo_oracle). lia.
Defined.


Lemma train_saves_and_returns_the_student_in_eval_mode_witness :
  exists r w',
    train demo_oracle demo_student demo_teacher demo_train_loader demo_val_loader
      demo_optimizer 0 2 "supervised-Pretraining" 0.5 0 2 "output/14-0.5"
      "output/loss_14-0.5" tt demo_world = (Ok r, w') /\
    (forall p m, ckpts w' !! p = Some m ->
       training m = false /\ contrast m = false /\ ident m = 0%nat) /\
    training r.1.1 = false /\ contrast r.1.1 = false /\
    training r.1.2 = true /\ contrast r.1.2 = true.
Proof.
  assert (Hok : is_Ok (train demo_oracle demo_student demo_teacher demo_train_loader
                         demo_val_loader demo_optimizer 0 2 "supervised-Pretraining"
                         0.5 0 2 "output/14-0.5" "output/loss_14-0.5" tt
                         demo_world).1 = true) by (vm_compute; reflexivity).
  destruct (train demo_oracle demo_student demo_teacher demo_train_loader
              demo_val_loader demo_optimizer 0 2 "supervised-Pretraining" 0.5 0 2
              "output/14-0.5" "output/loss_14-0.5" tt demo_world)
    as [[r | e] w'] eqn:E; [| discriminate Hok].
  exists r, w'. split; [reflexivity |].
  destruct (train_saves_and_returns_the_student_in_eval_mode demo_oracle
              _ _ _ _ _ _ _ _ _ _ _ _ _ _ _ _ _ E) as (Hck & _ & Hflags).
  split; [| apply Hflags; lia].
  intros p m Hm. apply Hck in Hm as [Hm | (? & ? & ? & _)]; [| auto].
  cbn in Hm. rewrite lookup_empty in Hm. discriminate.
Defined.

Lemma train_zero_save_interval_logs_one_row_witness :
  exists row w',
    train demo_oracle demo_student demo_teacher demo_train_loader demo_val_loader
      demo_optimizer 0 2 "SSL-reliable-st1" 0 0 0 "output/14-0" "output/loss_14-0"
      tt demo_world = (Raise ZeroDivisionError, w') /\
    rows w' "output/loss_14-0_SSL-reliable-st1-fold0.csv" = [row] /\
    ckpts w' = ∅.
Proof.
  destruct (train_zero_save_interval_logs_one_row demo_oracle demo_student
              demo_teacher demo_train_loader demo_val_loader demo_optimizer 0 2
              "SSL-reliable-st1" 0 0 "output/14-0" "output/loss_14-0" tt demo_world)
    as (row & w' & Hrun & Hrows & Hck & _).
  - lia.
  - discriminate.
  - discriminate.
  - intros (H & _). discriminate H.
  - exists row, w'. split; [exact Hrun | split; [exact Hrows | exact Hck]].
Defined.

(** ** Validation *)

Section ValidateFacts.
Context {Hidden : Type} (O : Oracle Hidden).



End ValidateFacts.


(** ** Reloading checkpoints *)

Lemma append_assoc (a b c : string) : (a +:+ b) +:+ c = a +:+ (b +:+ c).
Proof.
  induction a as [| x a IH]; [reflexivity |].
  change (String x ((a +:+ b) +:+ c) = String x (a +:+ (b +:+ c))).
  rewrite IH. reflexivity.
Qed.

Lemma load_pretrained_model_missing (model teacher_model : Model)
    (save_model_path : string) (epoch : Z) (w : World) :
  ckpts w !! (save_model_path +:+ str epoch +:+ "-s.pth") = None ->
  load_pretrained_model model teacher_model save_model_path epoch w
  = (Raise (FileNotFoundError (save_model_path +:+ str epoch +:+ "-s.pth")),
     add_events w
       [EvPrint ("model_path:  " +:+ save_model_path +:+ str epoch +:+ "-s.pth");
        EvPrint ("teacher_model_path:  " +:+ save_model_path
                   +:+ str (epoch - 10) +:+ "-s.pth");
        EvPrint ""]).
Proof.
  intros E1.
  unfold load_pretrained_model, mbind, M_bind, print, emit, torch_load, mret, M_ret.
  cbn [ckpts csvs next_ident trace]. rewrite E1.
  unfold add_events. cbn. rewrite <- !app_assoc. reflexivity.
Qed.

(** [load_pretrained_model] prints the two paths, then loads the student's
    checkpoint and then the teacher's.  It raises [FileNotFoundError] for the
    first of the two files that is missing; when both are there it returns
    two new objects in evaluation mode that hold the saved models.  The
    models it is given play no part, and no file is written. *)
Theorem load_pretrained_model_outcomes (model teacher_model : Model)
    (save_model_path : string) (epoch : Z) (w : World) :
  let model_path := save_model_path +:+ str epoch +:+ "-s.pth" in
  let teacher_model_path := save_model_path +:+ str (epoch - 10) +:+ "-s.pth" in
  let printed :=
    [EvPrint ("model_path:  " +:+ model_path);
     EvPrint ("teacher_model_path:  " +:+ teacher_model_path);
     EvPrint ""] in
  (ckpts w !! model_path = None ->
   load_pretrained_model model teacher_model save_model_path epoch w
   = (Raise (FileNotFoundError model_path), add_events w printed)) /\
  (forall saved_model,
     ckpts w !! model_path = Some saved_model ->
     ckpts w !! teacher_model_path = None ->
     load_pretrained_model model teacher_model save_model_path epoch w
     = (Raise (FileNotFoundError teacher_model_path),
        add_objects (add_events w (printed ++ [EvTorchLoad model_path])) 1)) /\
  (forall saved_model saved_teacher,
     ckpts w !! model_path = Some saved_model ->
     ckpts w !! teacher_model_path = Some saved_teacher ->
     exists model' teacher_model' w',
       load_pretrained_model model teacher_model save_model_path epoch w
       = (Ok (model', teacher_model'), w') /\
       params model' = params saved_model /\
       params teacher_model' = params saved_teacher /\
       contrast model' = contrast saved_model /\
       contrast teacher_model' = contrast saved_teacher /\
       training model' = false /\ training teacher_model' = false /\
       ident model' = next_ident w /\ ident teacher_model' = S (next_ident w) /\
       next_ident w' = S (S (next_ident w)) /\
       ckpts w' = ckpts w /\ csvs w' = csvs w) /\
  (forall other_model other_teacher,
     load_pretrained_model other_model other_teacher save_model_path epoch w
     = load_pretrained_model model teacher_model save_model_path epoch w).
Proof.
  intros model_path teacher_model_path printed.
  split; [| split; [| split]].
  - apply load_pretrained_model_missing.
  - intros saved_model E1 E2.
    unfold load_pretrained_model, mbind, M_bind, print, emit, torch_load, mret, M_ret.
    cbn [ckpts csvs next_ident trace]. fold model_path. rewrite E1.
    cbn [ckpts csvs next_ident trace]. fold teacher_model_path. rewrite E2.
    unfold add_objects, add_events, printed. cbn. rewrite <- !app_assoc. reflexivity.
  - intros saved_model saved_teacher E1 E2.
    eexists _, _, _. split; [apply load_pretrained_model_run; eassumption |].
    cbn. repeat split.
  - reflexivity.
Qed.

Lemma load_pretrained_model_outcomes_witness :
  ckpts empty_disk !! ("output/14-0.5/model_supervised-Pretraining_" +:+ str 100
                         +:+ "-s.pth") = None /\
  load_pretrained_model demo_student demo_teacher
    "output/14-0.5/model_supervised-Pretraining_" 100 empty_disk
  = (Raise (FileNotFoundError "output/14-0.5/model_supervised-Pretraining_100-s.pth"),
     add_events empty_disk
       [EvPrint "model_path:  output/14-0.5/model_supervised-Pretraining_100-s.pth";
        EvPrint "teacher_model_path:  output/14-0.5/model_supervised-Pretraining_90-s.pth";
        EvPrint ""]).
Proof.
  split; [reflexivity |].
  exact (proj1 (load_pretrained_model_outcomes demo_student demo_teacher
                  "output/14-0.5/model_supervised-Pretraining_" 100 empty_disk)
           eq_refl).
Defined.

(** ** Where [train] saves and where [load_pretrained_model] looks *)

Lemma fold_path_is_no_model_path (root rest1 rest2 : string) :
  root +:+ "/fold/" +:+ rest1 <> root +:+ "/model_" +:+ rest2.
Proof. intros H. apply (inj (String.append root)) in H. discriminate H. Qed.

Section SaveAndReload.
Context {Hidden : Type} (O : Oracle Hidden).

Lemma train_keeps_model_paths model teacher_model train_loader val_loader optimizer
    start_epochs end_epochs step_name cw fold save_interval save_loss_model_path
    save_loss_path (h : Hidden) (w w' : World) r (name : string) :
  train O model teacher_model train_loader val_loader optimizer start_epochs
    end_epochs step_name cw fold save_interval save_loss_model_path
    save_loss_path h w = (Ok r, w') ->
  ckpts w !! (save_loss_model_path +:+ "/model_" +:+ name) = None ->
  ckpts w' !! (save_loss_model_path +:+ "/model_" +:+ name) = None.
Proof.
  intros H Hnone.
  apply train_inv in H as (_ & _ & _ & Hck & _). cbn zeta in Hck.
  apply eq_None_not_Some. rewrite Hck. intros [Hs | (c & _ & _ & Hp)].
  - rewrite Hnone in Hs. destruct Hs as [? Hs]. discriminate Hs.
  - symmetry in Hp. apply fold_path_is_no_model_path in Hp. exact Hp.
Qed.

(** [train] writes its checkpoints under [<root>/fold/<fold>/] and nothing
    next to that directory, whereas [main] has [load_pretrained_model] look
    for [<root>/model_<stage>_<epoch>-s.pth]: unless such a file was there
    before the call, the reload after a completed stage raises
    [FileNotFoundError]. *)
Theorem reload_does_not_find_what_train_saved model teacher_model train_loader
    val_loader optimizer start_epochs end_epochs step_name cw fold save_interval
    save_loss_model_path save_loss_path (h : Hidden) (w w' : World) r
    (epoch : Z) :
  train O model teacher_model train_loader val_loader optimizer start_epochs
    end_epochs step_name cw fold save_interval save_loss_model_path
    save_loss_path h w = (Ok r, w') ->
  let save_model_path := save_loss_model_path +:+ "/model_" +:+ step_name +:+ "_" in
  ckpts w !! (save_model_path +:+ str epoch +:+ "-s.pth") = None ->
  ckpts w' !! (save_model_path +:+ str epoch +:+ "-s.pth") = None /\
  (load_pretrained_model r.1.1 r.1.2 save_model_path epoch w').1
  = Raise (FileNotFoundError (save_model_path +:+ str epoch +:+ "-s.pth")).
Proof.
  intros H save_model_path Hnone.
  assert (Hnone' : ckpts w' !! (save_model_path +:+ str epoch +:+ "-s.pth") = None).
  { unfold save_model_path in *. rewrite append_assoc in *.
    eapply train_keeps_model_paths; eassumption. }
  split; [exact Hnone' |].
  rewrite (load_pretrained_model_missing r.1.1 r.1.2 save_model_path epoch w' Hnone').
  reflexivity.
Qed.

End SaveAndReload.

Lemma reload_does_not_find_what_train_saved_witness :
  exists r w',
    train demo_oracle demo_student demo_teacher demo_train_loader demo_val_loader
      demo_optimizer 0 2 "supervised-Pretraining" 0.5 0 2 "output/14-0.5"
      "output/loss_14-0.5" tt demo_world = (Ok r, w') /\
    ckpts w' !! (("output/14-0.5" +:+ "/model_" +:+ "supervised-Pretraining" +:+ "_")
                   +:+ str 2 +:+ "-s.pth") = None /\
    (load_pretrained_model r.1.1 r.1.2
       ("output/14-0.5" +:+ "/model_" +:+ "supervised-Pretraining" +:+ "_") 2 w').1
    = Raise (FileNotFoundError "output/14-0.5/model_supervised-Pretraining_2-s.pth").
Proof.
  assert (Hok : is_Ok (train demo_oracle demo_student demo_teacher demo_train_loader
                         demo_val_loader demo_optimizer 0 2 "supervised-Pretraining"
                         0.5 0 2 "output/14-0.5" "output/loss_14-0.5" tt
                         demo_world).1 = true) by (vm_compute; reflexivity).
  destruct (train demo_oracle demo_student demo_teacher demo_train_loader
              demo_val_loader demo_optimizer 0 2 "supervised-Pretraining" 0.5 0 2
              "output/14-0.5" "output/loss_14-0.5" tt demo_world)
    as [[r | e] w'] eqn:E; [| discriminate Hok].
  exists r, w'. split; [reflexivity |].
  exact (reload_does_not_find_what_train_saved demo_oracle _ _ _ _ _ _ _ _ _ _ _ _ _ _
           _ _ _ 2%Z E eq_refl).
Defined.

(** ** Runs of [main] that stop in their first fold *)


Lemma KFold_split_error shuffle (n_splits n_samples : nat) (e : PyError) :
  KFold_split shuffle n_splits n_samples = Raise e ->
  (n_samples < n_splits)%nat /\
  e = ValueError "Cannot have number of splits greater than the number of samples".
Proof.
  unfold KFold_split. destruct (Nat.ltb_spec n_samples n_splits); [| discriminate].
  intros [= <-]. split; [assumption | reflexivity].
Qed.

Lemma KFold_split_first shuffle (n_samples : nat) folds :
  KFold_split shuffle 5 n_samples = Ok folds ->
  exists test rest,
    folds = (filter (fun i => i ∉ test) (seq 0 n_samples),
             filter (fun i => i ∈ test) (seq 0 n_samples)) :: rest /\
    (length test <= S (n_samples / 5))%nat /\
    (n_samples mod 5 = 0 -> length test <= n_samples / 5)%nat.
Proof.
  unfold KFold_split. destruct (n_samples <? 5)%nat; [discriminate |].
  intros [= <-]. unfold fold_sizes. cbn [seq fmap list_fmap test_folds].
  exists (take (if (0 <? n_samples mod 5)%nat
                then S (n_samples / 5) else (n_samples / 5)%nat)
            (shuffle (seq 0 n_samples))).
  eexists. split; [reflexivity |].
  rewrite length_take. split.
  - destruct (0 <? n_samples mod 5)%nat; lia.
  - intros ->. cbn [Nat.ltb Nat.leb]. lia.
Qed.

Lemma validation_fold_length (test : list nat) (n_samples : nat) :
  (length (filter (fun i => i ∈ test) (seq 0 n_samples)) <= length test)%nat.
Proof.
  apply submseteq_length, NoDup_submseteq.
  - apply NoDup_filter, NoDup_seq.
  - intros i Hi. apply list_elem_of_filter in Hi as [Hi _]. exact Hi.
Qed.

Section FirstFold.
Context {Hidden : Type} (O : Oracle Hidden).

Lemma train_empty_loader model teacher_model train_loader val_loader optimizer
    start_epochs end_epochs step_name cw fold save_interval save_loss_model_path
    save_loss_path (h : Hidden) (w : World) :
  train_loader = [] \/ val_loader = [] ->
  (start_epochs < end_epochs)%Z ->
  train O model teacher_model train_loader val_loader optimizer start_epochs
    end_epochs step_name cw fold save_interval save_loss_model_path
    save_loss_path h w
  = (Raise ZeroDivisionError, add_events w [EvTrain step_name]).
Proof.
  intros Hempty Hlt. unfold train.
  unfold mbind at 1, M_bind at 1. cbn [emit].
  unfold mbind at 1, M_bind at 1. unfold range.
  replace (end_epochs - start_epochs)%Z
    with (Z.succ (Z.pred (end_epochs - start_epochs))) by lia.
  rewrite seqZ_cons by lia. cbn [fmap list_fmap for_eachM].
  unfold mbind at 1, M_bind at 1.
  rewrite train_epoch_empty_loader by exact Hempty. reflexivity.
Qed.


Lemma stages_1_2_small_validation_fold (args : Args) save_loss_model_path
    save_loss_path optimizer_pretrain labeled_dataset unlabeled_loader
    supervised_start_epoch supervised_end_epoch fold train_ids valid_ids model
    teacher_model (h : Hidden) (w : World) :
  (0 < batch_size args)%Z ->
  (length valid_ids < Z.to_nat (batch_size args))%nat ->
  (supervised_start_epoch < supervised_end_epoch)%Z ->
  stages_1_2 O args save_loss_model_path save_loss_path optimizer_pretrain
    labeled_dataset unlabeled_loader supervised_start_epoch supervised_end_epoch
    fold train_ids valid_ids model teacher_model h w
  = (Raise ZeroDivisionError,
     add_events w [EvPrint ("FOLD " +:+ str fold);
                   EvPrint "--------------------------------";
                   EvTrain "supervised-Pretraining"]).
Proof.
  intros HB Hsmall Hlt. unfold stages_1_2.
  erewrite M_bind_ok by reflexivity.
  erewrite M_bind_ok by reflexivity.
  rewrite !(DataLoader_run _ _ HB).
  erewrite M_bind_ok by reflexivity.
  erewrite M_bind_ok by reflexivity.
  assert (Hlen : (length (omap (fun i => labeled_dataset !! i) valid_ids)
                  / Z.to_nat (batch_size args) = 0)%nat).
  { apply Nat.div_small. eapply Nat.le_lt_trans; [| exact Hsmall].
    clear. induction valid_ids as [| i l IH]; [reflexivity |].
    cbn. destruct (labeled_dataset !! i); cbn; lia. }
  rewrite Hlen. cbn [batches].
  erewrite M_bind_raise by (apply train_empty_loader; [right; reflexivity | exact Hlt]).
  unfold add_events. cbn [ckpts csvs next_ident trace].
  rewrite <- !app_assoc. reflexivity.
Qed.

Lemma fold_body_stage_1_2_raises (args : Args) save_loss_model_path save_loss_path
    optimizer_pretrain labeled_dataset unlabeled_loader supervised_start_epoch
    supervised_end_epoch state item (w w' : World) (e : PyError) :
  stages_1_2 O args save_loss_model_path save_loss_path optimizer_pretrain
    labeled_dataset unlabeled_loader supervised_start_epoch supervised_end_epoch
    item.1 item.2.1 item.2.2 state.1.1 state.1.2 state.2 w = (Raise e, w') ->
  forall rest,
    for_folds (fold_body O args save_loss_model_path save_loss_path
                 optimizer_pretrain labeled_dataset unlabeled_loader
                 supervised_start_epoch supervised_end_epoch)
      state (item :: rest) w = (Raise e, w').
Proof.
  intros H rest. cbn [for_folds]. apply M_bind_raise.
  unfold fold_body. apply M_bind_raise. exact H.
Qed.

(** The steps of [main] before the fold loop, with a positive batch size and
    at least five labeled samples. *)
Lemma main_reaches_first_fold (args : Args) (labeled_lines unlabeled_lines : nat)
    (h : Hidden) (w : World) :
  (0 < batch_size args)%Z ->
  (5 <= labeled_lines)%nat ->
  exists (model teacher_model : Model) (optimizer_pretrain : Optimizer)
         (unlabeled_loader : list Batch) test rest w1,
    ckpts w1 = ckpts w /\ csvs w1 = csvs w /\
    trace w1
    = trace w
        ++ [EvPrint (banner
                       "Total stage 1/6: Supervised training on labeled images (SupOnly)")] /\
    (length test <= S (labeled_lines / 5))%nat /\
    (labeled_lines mod 5 = 0 -> length test <= labeled_lines / 5)%nat /\
    main O args labeled_lines unlabeled_lines h w
    = (r ← for_folds
             (fold_body O args (main_save_loss_model_path O args)
                (main_save_loss_path O args) optimizer_pretrain
                (PascalVOCDataset true labeled_lines) unlabeled_loader 0 100)
             (model, teacher_model, h)
             ((0%Z, (filter (fun i => i ∉ test) (seq 0 labeled_lines),
                     filter (fun i => i ∈ test) (seq 0 labeled_lines))) :: rest);
       match r.1 with
       | Returned => mret tt
       | Next => print (banner "Finish")
       end) w1.
Proof.
  intros HB HL. unfold main.
  erewrite M_bind_ok by reflexivity. cbn [fst snd].
  rewrite (DataLoader_run _ _ HB).
  erewrite M_bind_ok by reflexivity.
  erewrite M_bind_ok by reflexivity.
  rewrite (PascalVOCDataset_length true).
  destruct (KFold_split (kfold_shuffle O) 5 labeled_lines) as [folds | e] eqn:E.
  2:{ apply KFold_split_error in E as [E _]. lia. }
  apply KFold_split_first in E as (test & rest & -> & Hlen & Hlen0).
  erewrite M_bind_ok by reflexivity.
  unfold enumerate. cbn [length]. rewrite Nat2Z.inj_succ, seqZ_cons by lia.
  cbn [zip zip_with].
  eexists _, _, _, _, test, _, _.
  split; [| split; [| split; [| split; [exact Hlen | split; [exact Hlen0 | reflexivity]]]]];
    reflexivity.
Qed.



(** With at least five labeled samples but no more than
    [5 * (batch_size - 1)] of them (75 for the default batch size 16) every
    validation fold is smaller than one batch, so that the validation loader,
    which drops the last incomplete batch, is empty: [main] raises
    [ZeroDivisionError] in the first epoch of the first fold, before anything
    is logged or saved. *)
Theorem main_small_validation_folds (args : Args)
    (labeled_lines unlabeled_lines : nat) (h : Hidden) (w : World) :
  (5 <= labeled_lines)%nat ->
  (Z.of_nat labeled_lines <= 5 * (batch_size args - 1))%Z ->
  exists w',
    main O args labeled_lines unlabeled_lines h w = (Raise ZeroDivisionError, w') /\
    ckpts w' = ckpts w /\ csvs w' = csvs w /\
    trace w'
    = trace w
        ++ [EvPrint (banner
                       "Total stage 1/6: Supervised training on labeled images (SupOnly)");
            EvPrint ("FOLD " +:+ str 0);
            EvPrint "--------------------------------";
            EvTrain "supervised-Pretraining"].
Proof.
  intros HL Hsmall.
  assert (HB : (0 < batch_size args)%Z) by lia.
  destruct (main_reaches_first_fold args labeled_lines unlabeled_lines h w HB HL)
    as (model & teacher_model & optimizer_pretrain & unlabeled_loader & test & rest
        & w1 & Hck & Hcsv & Htrace & Hlen & Hlen0 & ->).
  eexists. split.
  - apply M_bind_raise. apply fold_body_stage_1_2_raises.
    apply stages_1_2_small_validation_fold; [exact HB | | lia].
    cbn [fst snd].
    eapply Nat.le_lt_trans; [apply validation_fold_length |].
    destruct (Nat.eq_dec (labeled_lines mod 5) 0) as [Hz | Hnz].
    + specialize (Hlen0 Hz). 
      pose proof (Nat.div_mod_eq labeled_lines 5). lia.
    + pose proof (Nat.div_mod_eq labeled_lines 5).
      pose proof (Nat.mod_upper_bound labeled_lines 5). lia.
  - cbn [add_events ckpts csvs trace]. rewrite Hck, Hcsv, Htrace, <- app_assoc.
    repeat split.
Qed.

End FirstFold.


Lemma main_small_validation_folds_witness :
  exists w',
    main demo_oracle default_args 20 20 tt demo_disk = (Raise ZeroDivisionError, w') /\
    ckpts w' = ckpts demo_disk /\ csvs w' = csvs demo_disk /\
    trace w'
    = trace demo_disk
        ++ [EvPrint (banner
                       "Total stage 1/6: Supervised training on labeled images (SupOnly)");
            EvPrint ("FOLD " +:+ str 0);
            EvPrint "--------------------------------";
            EvTrain "supervised-Pretraining"].
Proof.
  apply (main_small_validation_folds demo_oracle default_args 20 20 tt demo_disk).
  - lia.
  - vm_compute. discriminate.
Defined.

(** ** Training with an optimizer that holds another object's parameters *)

Section ForeignOptimizer.
Context {Hidden : Type} (O : Oracle Hidden).

Lemma train_step_foreign optimizer step_name cw c_epochs end_epochs
    (env env' : TrainEnv) (batch : Batch) :
  opt_params_of optimizer <> ident (student env) ->
  train_step O optimizer step_name cw c_epochs end_epochs env batch = Ok env' ->
  params (student env') = params (student env) /\
  ident (student env') = ident (student env) /\
  params (teacher env')
  = ema_update (params (student env)) (params (teacher env)).
Proof.
  intros Hne H. apply train_step_inv in H as (weight & _ & H). cbn zeta in H.
  destruct H as (Hs & Ht & _).
  rewrite optimizer_step_other in Hs, Ht by exact Hne.
  rewrite Ht, Hs. cbn. auto.
Qed.

Lemma batch_loop_foreign optimizer step_name cw c_epochs end_epochs
    (train_loader : list Batch) (env env' : TrainEnv) :
  opt_params_of optimizer <> ident (student env) ->
  for_each (train_step O optimizer step_name cw c_epochs end_epochs) env train_loader
  = Ok env' ->
  params (student env') = params (student env) /\
  ident (student env') = ident (student env) /\
  params (teacher env')
  = Nat.iter (length train_loader) (ema_update (params (student env)))
      (params (teacher env)).
Proof.
  revert env. induction train_loader as [| batch rest IH]; intros env Hne H.
  - injection H as <-. repeat split.
  - cbn [for_each] in H.
    destruct (train_step O optimizer step_name cw c_epochs end_epochs env batch)
      as [env1 | e] eqn:E1; [| discriminate].
    cbn in H.
    apply train_step_foreign in E1 as (Hp & Hi & Ht); [| exact Hne].
    apply IH in H as (Hp' & Hi' & Ht'); [| congruence].
    split; [congruence | split; [congruence |]].
    rewrite Ht', Hp, Ht. cbn [length]. rewrite Nat.iter_succ_r. reflexivity.
Qed.

Lemma train_epoch_foreign train_loader val_loader optimizer end_epochs step_name cw
    fold save_interval save_loss_model_path save_loss_path
    (env env' : TrainEnv) (c_epochs : Z) (w w' : World) :
  opt_params_of optimizer <> ident (student env) ->
  train_epoch O train_loader val_loader optimizer end_epochs step_name cw
    fold save_interval save_loss_model_path save_loss_path env c_epochs w
  = (Ok env', w') ->
  params (student env') = params (student env) /\
  ident (student env') = ident (student env) /\
  params (teacher env')
  = Nat.iter (length train_loader) (ema_update (params (student env)))
      (params (teacher env)) /\
  (forall p m, ckpts w' !! p = Some m ->
     ckpts w !! p = Some m \/ params m = params (student env)).
Proof.
  intros Hne H.
  apply train_epoch_inv_full in H
    as (env1 & vr & weight & row & Hloop & _ & _ & _ & _ & _ & Hs & Ht & ->).
  apply batch_loop_foreign in Hloop as (Hp & Hi & Hpt); [| exact Hne].
  cbn [student teacher] in Hp, Hi, Hpt.
  assert (Hp' : params (student env') = params (student env))
    by (rewrite Hs; exact Hp).
  split; [exact Hp' | split; [rewrite Hs; exact Hi | split; [rewrite Ht; exact Hpt |]]].
  intros p m Hm. cbn in Hm.
  destruct (c_epochs mod save_interval =? 0)%Z; [| left; exact Hm].
  match type of Hm with
  | <[?q := _]> _ !! _ = _ => destruct (decide (p = q)) as [-> | Hq]
  end.
  - rewrite lookup_insert_eq in Hm. injection Hm as <-. right. exact Hp'.
  - rewrite lookup_insert_ne in Hm by congruence. left. exact Hm.
Qed.

Lemma epochs_foreign train_loader val_loader optimizer end_epochs step_name cw
    fold save_interval save_loss_model_path save_loss_path
    (epochs : list Z) (env env' : TrainEnv) (w w' : World) :
  opt_params_of optimizer <> ident (student env) ->
  for_eachM (train_epoch O train_loader val_loader optimizer end_epochs step_name cw
               fold save_interval save_loss_model_path save_loss_path)
    env epochs w = (Ok env', w') ->
  params (student env') = params (student env) /\
  ident (student env') = ident (student env) /\
  params (teacher env')
  = Nat.iter (length epochs * length train_loader)
      (ema_update (params (student env))) (params (teacher env)) /\
  (forall p m, ckpts w' !! p = Some m ->
     ckpts w !! p = Some m \/ params m = params (student env)).
Proof.
  revert env w. induction epochs as [| c_epochs epochs IH]; intros env w Hne H.
  - cbn in H. injection H as <- <-. repeat split. auto.
  - cbn [for_eachM] in H. unfold mbind at 1, M_bind at 1 in H.
    destruct (train_epoch _ _ _ _ _ _ _ _ _ _ _ _ _ w) as [[env1 | e] w1] eqn:E;
      [| discriminate].
    apply train_epoch_foreign in E as (Hp & Hi & Ht & Hck); [| exact Hne].
    apply IH in H as (Hp' & Hi' & Ht' & Hck'); [| congruence].
    split; [congruence | split; [congruence | split]].
    + rewrite Ht', Hp, Ht. cbn [length]. rewrite <- Nat.iter_add.
      f_equal. lia.
    + intros p m Hm. apply Hck' in Hm as [Hm | Hm].
      * apply Hck in Hm. exact Hm.
      * right. congruence.
Qed.

Lemma train_foreign model teacher_model train_loader val_loader optimizer
    start_epochs end_epochs step_name cw fold save_interval
    save_loss_model_path save_loss_path (h : Hidden) (w w' : World) r :
  opt_params_of optimizer <> ident model ->
  train O model teacher_model train_loader val_loader optimizer start_epochs
    end_epochs step_name cw fold save_interval save_loss_model_path
    save_loss_path h w = (Ok r, w') ->
  params r.1.1 = params model /\
  params r.1.2
  = Nat.iter (Z.to_nat (end_epochs - start_epochs) * length train_loader)
      (ema_update (params model)) (params teacher_model) /\
  (forall p m, ckpts w' !! p = Some m ->
     ckpts w !! p = Some m \/ params m = params model).
Proof.
  intros Hne. unfold train. unfold mbind at 1, M_bind at 1. cbn [emit].
  unfold mbind at 1, M_bind at 1.
  match goal with
  | |- context [for_eachM ?body ?env ?epochs ?w0] =>
      destruct (for_eachM body env epochs w0) as [[env' | e1] w1] eqn:E
  end; [| discriminate].
  intros H. injection H as <- <-.
  apply epochs_foreign in E as (Hp & _ & Ht & Hck); [| exact Hne].
  cbn [student teacher fst snd] in *.
  rewrite length_fmap in Ht. unfold range in Ht. rewrite length_seqZ in Ht.
  split; [exact Hp | split; [exact Ht | exact Hck]].
Qed.


(** Stage 6 trains the models that stage 5 has just loaded with the
    optimizer that was built on the first network: when the stage runs to its
    end, the student it returns still has the parameters of the checkpoint
    [model_SSL-reliable-st1_100-s.pth], and the teacher's parameters are
    those of [model_SSL-reliable-st1_90-s.pth] after one EMA step per batch
    towards them. *)
Theorem stage_6_does_not_train_the_student (args : Args) save_loss_model_path
    save_loss_path optimizer_pretrain fold valid_loader
    (remaining_dataset : list Sample) model teacher_model (h : Hidden)
    (w w' : World) (st : Model * Model * Hidden) :
  (opt_params_of optimizer_pretrain < next_ident w)%nat ->
  stages_5_6 O args save_loss_model_path save_loss_path optimizer_pretrain fold
    valid_loader remaining_dataset model teacher_model h w = (Ok (Next, st), w') ->
  let save_model_path := save_loss_model_path +:+ "/model_SSL-reliable-st1_" in
  exists saved_model saved_teacher (steps : nat),
    ckpts w !! (save_model_path +:+ str 100 +:+ "-s.pth") = Some saved_model /\
    ckpts w !! (save_model_path +:+ str (100 - 10) +:+ "-s.pth") = Some saved_teacher /\
    params st.1.1 = params saved_model /\
    params st.1.2
    = Nat.iter steps (ema_update (params saved_model)) (params saved_teacher) /\
    (200 <= steps)%nat.
Proof.
  intros Hopt. unfold stages_5_6.
  erewrite M_bind_ok by reflexivity.
  assert (Hguard : exists w0,
             (if (Z.of_nat (length remaining_dataset) <? batch_size args)%Z
              then print "remaining_dataset < batch size" else mret tt)
               {| ckpts := ckpts w; csvs := csvs w; next_ident := next_ident w;
                  trace := trace w ++ [EvPrint (banner "Total stage 5/6: Generate pseudo labels for remaining images")] |}
             = (Ok tt, w0) /\ ckpts w0 = ckpts w /\ next_ident w0 = next_ident w).
  { destruct (_ <? _)%Z; eexists; (split; [reflexivity |]); split; reflexivity. }
  destruct Hguard as (w0 & Hguard & Hck0 & Hid0).
  erewrite M_bind_ok by exact Hguard.
  unfold mbind at 1, M_bind at 1.
  destruct (load_pretrained_model _ _ _ _ _) as [[[model' teacher'] | e] w1] eqn:El;
    [| discriminate].
  apply load_pretrained_model_inv in El
    as (saved_model & saved_teacher & E1 & E2 & -> & -> & _).
  rewrite Hck0 in E1, E2. cbn [fst snd].
  unfold mbind at 1, M_bind at 1, lift at 1.
  destruct (DataLoader remaining_dataset (batch_size args)) as [rl | e];
    [| discriminate].
  erewrite M_bind_ok by reflexivity.
  unfold mbind at 1, M_bind at 1, lift at 1.
  destruct (DataLoader (seen_by rl) (batch_size args)) as [rll | e] eqn:Erll;
    [| discriminate].
  erewrite M_bind_ok by reflexivity.
  destruct (Nat.ltb_spec (length rll) 2) as [Hlt | Hge].
  { erewrite M_bind_ok by reflexivity. discriminate. }
  erewrite M_bind_ok by reflexivity.
  unfold mbind at 1, M_bind at 1.
  match goal with
  | |- context [train O ?m ?t ?tl ?vl ?o ?s ?e ?n ?cw ?f ?si ?mp ?lp ?h0 ?w0] =>
      destruct (train O m t tl vl o s e n cw f si mp lp h0 w0)
        as [[r | e1] w2] eqn:E
  end; [| discriminate].
  intros H. cbn zeta. injection H as <- <-.
  apply train_foreign in E as (Hp & Ht & _).
  2:{ cbn. lia. }
  exists saved_model, saved_teacher, (Z.to_nat (100 - 0) * length rll)%nat.
  split; [exact E1 | split; [exact E2 | split; [exact Hp | split; [exact Ht |]]]].
  change (Z.to_nat (100 - 0)) with 100%nat. lia.
Qed.

End ForeignOptimizer.


Lemma stage_6_does_not_train_the_student_witness :
  exists st w',
    stages_5_6 demo_oracle demo_args "output/14-0.5" "output/loss_14-0.5"
      demo_optimizer 0 demo_val_loader demo_remaining_12 demo_student demo_teacher
      tt demo_disk_with_models = (Ok (Next, st), w') /\
    params st.1.1 = params demo_saved_model.
Proof.
  assert (Hok : match (stages_5_6 demo_oracle demo_args "output/14-0.5"
                         "output/loss_14-0.5" demo_optimizer 0 demo_val_loader
                         demo_remaining_12 demo_student demo_teacher tt
                         demo_disk_with_models).1 with
                | Ok (Next, _) => true
                | _ => false
                end = true) by (vm_compute; reflexivity).
  destruct (stages_5_6 demo_oracle demo_args "output/14-0.5" "output/loss_14-0.5"
              demo_optimizer 0 demo_val_loader demo_remaining_12 demo_student
              demo_teacher tt demo_disk_with_models)
    as [[[[|] st] | e] w'] eqn:E; try discriminate Hok.
  exists st, w'. split; [reflexivity |].
  assert (Hopt : (opt_params_of demo_optimizer < next_ident demo_disk_with_models)%nat)
    by (cbn; lia).
  destruct (stage_6_does_not_train_the_student demo_oracle _ _ _ _ _ _ _ _ _ _ _ _ _
              Hopt E)
    as (sm & stch & steps & E1 & _ & Hp & _).
  rewrite Hp. vm_compute in E1. injection E1 as <-. reflexivity.
Defined.

(** ** One-hot encoding *)

Lemma elem_of_indices4 (n c h w : nat) (i c' j k : nat) :
  (i, c', j, k) ∈ indices4 (n, c, h, w)
  <-> (i < n /\ c' < c /\ j < h /\ k < w)%nat.
Proof.
  unfold indices4. cbn [fst snd].
  rewrite list_elem_of_bind. split.
  - intros (i0 & H & Hi). apply elem_of_seq in Hi.
    apply list_elem_of_bind in H as (c0 & H & Hc). apply elem_of_seq in Hc.
    apply list_elem_of_bind in H as (j0 & H & Hj). apply elem_of_seq in Hj.
    apply list_elem_of_bind in H as (k0 & H & Hk). apply elem_of_seq in Hk.
    apply list_elem_of_singleton in H. injection H as -> -> -> ->. lia.
  - intros (Hi & Hc & Hj & Hk). exists i. split; [| apply elem_of_seq; lia].
    apply list_elem_of_bind. exists c'. split; [| apply elem_of_seq; lia].
    apply list_elem_of_bind. exists j. split; [| apply elem_of_seq; lia].
    apply list_elem_of_bind. exists k. split; [| apply elem_of_seq; lia].
    apply list_elem_of_singleton. reflexivity.
Qed.

Lemma scatter_writes_inr (self : Tensor4 Q) (index : Tensor4 Z) (value : Q)
    (entries : list (nat * nat * nat * nat)) (o : Tensor4 Q) :
  scatter_writes self index value entries = inr o ->
  shape4 o = shape4 self /\
  Forall (fun e => (0 <= item4 index e.1.1.1 e.1.1.2 e.1.2 e.2
                    < Z.of_nat (shape4 self).1.1.2)%Z) entries /\
  forall i c j k,
    item4 o i c j k
    = if existsb (writes_to index i c j k) entries then value else item4 self i c j k.
Proof.
  revert self. induction entries as [| [[[i0 c0] j0] k0] rest IH]; intros self H.
  - injection H as <-. repeat split. constructor.
  - cbn [scatter_writes] in H.
    destruct ((0 <=? item4 index i0 c0 j0 k0)%Z
              && (item4 index i0 c0 j0 k0 <? Z.of_nat (shape4 self).1.1.2)%Z)
      eqn:Hin; [| discriminate].
    apply andb_true_iff in Hin as [H0 H1].
    apply Z.leb_le in H0. apply Z.ltb_lt in H1.
    apply IH in H as (Hshape & Hall & Hitem). cbn [setitem4 shape4] in Hshape, Hall.
    split; [exact Hshape | split; [constructor; [cbn; lia | exact Hall] |]].
    intros i c j k. rewrite Hitem. cbn [existsb item4 setitem4].
    unfold writes_to at 2. cbn [fst snd].
    destruct (existsb (writes_to index i c j k) rest).
    + rewrite orb_true_r. reflexivity.
    + rewrite orb_false_r.
      destruct (decide ((i, c, j, k) = (i0, Z.to_nat (item4 index i0 c0 j0 k0), j0, k0)))
        as [E | E].
      * rewrite bool_decide_eq_true_2 by congruence. reflexivity.
      * rewrite bool_decide_eq_false_2 by congruence. reflexivity.
Qed.

Lemma scatter_writes_inl (self : Tensor4 Q) (index : Tensor4 Z) (value : Q)
    (entries : list (nat * nat * nat * nat)) (e : RuntimeError) :
  scatter_writes self index value entries = inl e ->
  Exists (fun e => ~ (0 <= item4 index e.1.1.1 e.1.1.2 e.1.2 e.2
                      < Z.of_nat (shape4 self).1.1.2)%Z) entries.
Proof.
  revert self. induction entries as [| [[[i0 c0] j0] k0] rest IH]; intros self H;
    [discriminate |].
  cbn [scatter_writes] in H.
  destruct ((0 <=? item4 index i0 c0 j0 k0)%Z
            && (item4 index i0 c0 j0 k0 <? Z.of_nat (shape4 self).1.1.2)%Z)
    eqn:Hin.
  - right. apply IH in H. exact H.
  - left. cbn [fst snd]. apply andb_false_iff in Hin as [H0 | H1].
    + apply Z.leb_gt in H0. lia.
    + apply Z.ltb_ge in H1. lia.
Qed.

Lemma existsb_writes_to (tensor : Tensor3 Z) (i c j k : nat) :
  (i < tensor.(shape3).1.1)%nat -> (j < tensor.(shape3).1.2)%nat ->
  (k < tensor.(shape3).2)%nat ->
  existsb (writes_to (unsqueeze tensor) i c j k) (indices4 (shape4 (unsqueeze tensor)))
  = bool_decide (Z.to_nat (item3 tensor i j k) = c).
Proof.
  intros Hi Hj Hk. apply eq_true_iff_eq. rewrite existsb_exists.
  rewrite bool_decide_eq_true. split.
  - intros ([[[i' c'] j'] k'] & _ & Hw). unfold writes_to in Hw.
    apply bool_decide_eq_true in Hw. cbn in Hw. congruence.
  - intros Hc. exists (i, 0%nat, j, k). split.
    + apply list_elem_of_In. apply elem_of_indices4. lia.
    + unfold writes_to. apply bool_decide_eq_true. cbn. congruence.
Qed.

Lemma sum_of_indicator (label start len : nat) :
  (foldr Qplus 0
     ((fun c => if bool_decide (label = c) then 1 else 0) <$> seq start len)
   == if bool_decide (start <= label < start + len)%nat then 1 else 0)%Q.
Proof.
  revert start. induction len as [| len IH]; intros start.
  - cbn. rewrite bool_decide_eq_false_2 by lia. reflexivity.
  - cbn [seq fmap list_fmap foldr]. rewrite IH.
    destruct (decide (label = start)) as [-> | Hne].
    + rewrite bool_decide_eq_true_2 by reflexivity.
      rewrite bool_decide_eq_false_2 by lia.
      rewrite bool_decide_eq_true_2 by lia. reflexivity.
    + rewrite (bool_decide_eq_false_2 (label = start)) by exact Hne.
      destruct (decide (S start <= label < S start + len)%nat).
      * rewrite !bool_decide_eq_true_2 by lia. reflexivity.
      * rewrite !bool_decide_eq_false_2 by lia. reflexivity.
Qed.

Lemma to_one_hot_inr (tensor : Tensor3 Z) (num_classes : Z) (one_hot : Tensor4 Q) :
  to_one_hot tensor num_classes = inr one_hot ->
  (0 <= num_classes)%Z /\
  shape4 one_hot
  = (tensor.(shape3).1.1, Z.to_nat num_classes, tensor.(shape3).1.2, tensor.(shape3).2) /\
  forall i j k : nat,
    (i < tensor.(shape3).1.1)%nat -> (j < tensor.(shape3).1.2)%nat ->
    (k < tensor.(shape3).2)%nat ->
    (0 <= item3 tensor i j k < num_classes)%Z /\
    forall c : nat,
      item4 one_hot i c j k
      = if bool_decide (Z.to_nat (item3 tensor i j k) = c) then 1%Q else 0%Q.
Proof.
  unfold to_one_hot, zeros. destruct (Z.ltb_spec num_classes 0) as [| Hc];
    [discriminate |].
  unfold scatter_. cbn [shape4 unsqueeze fst snd]. rewrite !Nat.leb_refl. cbn [andb].
  intros H. apply scatter_writes_inr in H as (Hshape & Hall & Hitem).
  cbn [shape4 fst snd] in Hshape, Hall.
  split; [exact Hc | split; [exact Hshape |]].
  intros i j k Hi Hj Hk. split.
  - rewrite Forall_forall in Hall.
    specialize (Hall (i, 0%nat, j, k)). cbn [fst snd unsqueeze item4] in Hall.
    rewrite Z2Nat.id in Hall by exact Hc. apply Hall.
    apply (elem_of_indices4 _ 1). lia.
  - intros c. rewrite Hitem.
    change (indices4 _) with (indices4 (shape4 (unsqueeze tensor))).
    rewrite existsb_writes_to by assumption. reflexivity.
Qed.

(** [to_one_hot] returns exactly when [num_classes] is not negative and every
    label of the tensor is a class index; the result then has the shape
    (n, num_classes, h, w) and, at each pixel, holds 1 in the channel of the
    pixel's label and 0 in every other channel.  Otherwise it raises
    [RuntimeError], from [torch.zeros] or from [scatter_]. *)
Theorem to_one_hot_encodes_the_labels (tensor : Tensor3 Z) (num_classes : Z) :
  match to_one_hot tensor num_classes with
  | inr one_hot =>
      (0 <= num_classes)%Z /\
      shape4 one_hot
      = (tensor.(shape3).1.1, Z.to_nat num_classes,
         tensor.(shape3).1.2, tensor.(shape3).2) /\
      forall i j k : nat,
        (i < tensor.(shape3).1.1)%nat -> (j < tensor.(shape3).1.2)%nat ->
        (k < tensor.(shape3).2)%nat ->
        (0 <= item3 tensor i j k < num_classes)%Z /\
        forall c : nat,
          item4 one_hot i c j k
          = if bool_decide (Z.to_nat (item3 tensor i j k) = c) then 1%Q else 0%Q
  | inl _ =>
      (num_classes < 0)%Z \/
      exists i j k : nat,
        (i < tensor.(shape3).1.1)%nat /\ (j < tensor.(shape3).1.2)%nat /\
        (k < tensor.(shape3).2)%nat /\
        ~ (0 <= item3 tensor i j k < num_classes)%Z
  end.
Proof.
  destruct (to_one_hot tensor num_classes) as [e | one_hot] eqn:E.
  - unfold to_one_hot, zeros in E.
    destruct (Z.ltb_spec num_classes 0) as [Hc | Hc]; [left; exact Hc | right].
    unfold scatter_ in E. cbn [shape4 unsqueeze fst snd] in E.
    rewrite !Nat.leb_refl in E. cbn [andb] in E.
    apply scatter_writes_inl in E. apply Exists_exists in E
      as ([[[i c] j] k] & Hin & Hout).
    apply elem_of_indices4 in Hin. cbn [fst snd unsqueeze item4 shape4] in Hout.
    rewrite Z2Nat.id in Hout by exact Hc.
    exists i, j, k. split; [lia | split; [lia | split; [lia | exact Hout]]].
  - apply to_one_hot_inr. exact E.
Qed.

(** The result of [to_one_hot] is one-hot: at every pixel the entries over
    the channels sum to 1. *)
Theorem to_one_hot_channels_sum_to_one (tensor : Tensor3 Z) (num_classes : Z)
    (one_hot : Tensor4 Q) (i j k : nat) :
  to_one_hot tensor num_classes = inr one_hot ->
  (i < tensor.(shape3).1.1)%nat -> (j < tensor.(shape3).1.2)%nat ->
  (k < tensor.(shape3).2)%nat ->
  (foldr Qplus 0 ((fun c => item4 one_hot i c j k) <$> seq 0 (shape4 one_hot).1.1.2)
   == 1)%Q.
Proof.
  intros H Hi Hj Hk. apply to_one_hot_inr in H as (Hc & -> & Hitem).
  destruct (Hitem i j k Hi Hj Hk) as [Hrange Hval]. cbn [fst snd].
  erewrite list_fmap_ext; [| intros ? c _; apply Hval].
  rewrite sum_of_indicator. rewrite bool_decide_eq_true_2 by lia. reflexivity.
Qed.

Lemma to_one_hot_channels_sum_to_one_witness :
  exists one_hot,
    to_one_hot demo_labels 3 = inr one_hot /\
    (foldr Qplus 0 ((fun c => item4 one_hot 0 c 1 0) <$> seq 0 (shape4 one_hot).1.1.2)
     == 1)%Q.
Proof.
  destruct (to_one_hot demo_labels 3) as [e | one_hot] eqn:E;
    [vm_compute in E; discriminate E |].
  exists one_hot. split; [reflexivity |].
  apply (to_one_hot_channels_sum_to_one demo_labels 3 one_hot 0 1 0 E);
    cbn; lia.
Defined.

(** ** The dataset class of [datasets_PASCAL-checkpoint.py] *)

Lemma split_lstrip (s : string) :
  datasets_PASCAL.split (datasets_PASCAL.lstrip s) = datasets_PASCAL.split s.
Proof.
  induction s as [| c s IH]; [reflexivity |].
  cbn [datasets_PASCAL.lstrip]. destruct (datasets_PASCAL.isspace c) eqn:E.
  - rewrite IH. cbn [datasets_PASCAL.split]. rewrite E. reflexivity.
  - reflexivity.
Qed.

Lemma rstrip_head (s r : string) (d : Ascii.ascii) :
  datasets_PASCAL.rstrip s = String d r -> exists t, s = String d t.
Proof.
  destruct s as [| c s]; [discriminate |].
  cbn [datasets_PASCAL.rstrip].
  destruct (datasets_PASCAL.rstrip s);
    [destruct (datasets_PASCAL.isspace c); [discriminate |] |];
    intros [= <- _]; eauto.
Qed.

Lemma split_rstrip (s : string) :
  datasets_PASCAL.split (datasets_PASCAL.rstrip s) = datasets_PASCAL.split s.
Proof.
  induction s as [| c s IH]; [reflexivity |].
  cbn [datasets_PASCAL.rstrip].
  destruct (datasets_PASCAL.rstrip s) as [| d r] eqn:Er.
  - cbn [datasets_PASCAL.split] in IH. cbn [datasets_PASCAL.split]. rewrite <- IH.
    destruct (datasets_PASCAL.isspace c) eqn:E.
    + reflexivity.
    + cbn [datasets_PASCAL.split]. rewrite E. destruct s; reflexivity.
  - destruct (rstrip_head _ _ _ Er) as [t ->].
    cbn [datasets_PASCAL.split] in *. rewrite IH. reflexivity.
Qed.

Lemma split_strip (s : string) :
  datasets_PASCAL.split (datasets_PASCAL.strip s) = datasets_PASCAL.split s.
Proof. unfold datasets_PASCAL.strip. rewrite split_rstrip. apply split_lstrip. Qed.

Lemma split_words (s : string) : Forall datasets_PASCAL.word (datasets_PASCAL.split s).
Proof.
  induction s as [| c s IH]; [constructor |].
  cbn [datasets_PASCAL.split]. destruct (datasets_PASCAL.isspace c) eqn:E; [exact IH |].
  assert (Hc : datasets_PASCAL.word (String c EmptyString)).
  { split; [discriminate | cbn; rewrite E; reflexivity]. }
  destruct s as [| c' s']; [constructor; [exact Hc | exact IH] |].
  destruct (datasets_PASCAL.split (String c' s')) as [| w ws];
    [constructor; [exact Hc | constructor] |].
  destruct (datasets_PASCAL.isspace c'); [constructor; [exact Hc | exact IH] |].
  inversion IH as [| ? ? [_ Hw] Hws]; subst.
  constructor; [| exact Hws].
  split; [discriminate | cbn; rewrite E, Hw; reflexivity].
Qed.

Lemma split_blank (s : string) :
  datasets_PASCAL.split s = [] <-> datasets_PASCAL.blank s = true.
Proof.
  induction s as [| c s IH]; [split; reflexivity |].
  cbn [datasets_PASCAL.split datasets_PASCAL.blank].
  destruct (datasets_PASCAL.isspace c) eqn:E; [exact IH |].
  cbn [andb]. split; [| discriminate].
  destruct s as [| c' s']; [discriminate |].
  destruct (datasets_PASCAL.split (String c' s')); [discriminate |].
  destruct (datasets_PASCAL.isspace c'); discriminate.
Qed.

Lemma split_word_then_space (w rest : string) (c : Ascii.ascii) :
  datasets_PASCAL.word w ->
  datasets_PASCAL.isspace c = true ->
  datasets_PASCAL.split (w +:+ String c rest) = w :: datasets_PASCAL.split rest.
Proof.
  intros [Hne Hns] Hc. induction w as [| x w IH]; [contradiction |].
  cbn [datasets_PASCAL.no_space] in Hns. apply andb_true_iff in Hns as [Hx Hw].
  apply negb_true_iff in Hx.
  change (String x w +:+ String c rest) with (String x (w +:+ String c rest)).
  cbn [datasets_PASCAL.split]. rewrite Hx.
  destruct w as [| y w'].
  - change ("" +:+ String c rest) with (String c rest).
    cbn [datasets_PASCAL.split]. rewrite Hc.
    destruct (datasets_PASCAL.split rest); reflexivity.
  - rewrite IH by (discriminate || exact Hw).
    change (String y w' +:+ String c rest) with (String y (w' +:+ String c rest)).
    cbn [datasets_PASCAL.no_space] in Hw. apply andb_true_iff in Hw as [Hy _].
    apply negb_true_iff in Hy. rewrite Hy. reflexivity.
Qed.

(** [__init__] keeps one entry per line of the file, blank lines included, so
    that [__len__] is the number of lines; the entry of a line is the list of
    its whitespace-free runs (the [strip] before [split] changes nothing):
    every field is non-empty and holds no whitespace, a blank line has no
    field, and a line [image mask] followed by a newline has the two fields
    [image] and [mask]. *)
Theorem init_keeps_one_entry_per_line (lines : list string) (image_size : Z)
    (root_dir : string) (labeled : bool) :
  let self := datasets_PASCAL.__init__ lines image_size root_dir labeled in
  datasets_PASCAL.__len__ self = Z.of_nat (length lines) /\
  (forall (i : nat) (line : string),
     lines !! i = Some line ->
     datasets_PASCAL.image_mask_pairs self !! i = Some (datasets_PASCAL.split line) /\
     Forall datasets_PASCAL.word (datasets_PASCAL.split line) /\
     (datasets_PASCAL.split line = [] <-> datasets_PASCAL.blank line = true)) /\
  (forall (i : nat) (image mask : string),
     datasets_PASCAL.word image -> datasets_PASCAL.word mask ->
     lines !! i = Some (image +:+ " " +:+ mask +:+ nl) ->
     datasets_PASCAL.image_mask_pairs self !! i = Some [image; mask]).
Proof.
  intros self. unfold self, datasets_PASCAL.__init__, datasets_PASCAL.__len__.
  cbn [datasets_PASCAL.image_mask_pairs].
  split; [rewrite length_fmap; reflexivity | split].
  - intros i line Hi. rewrite list_lookup_fmap, Hi. cbn. rewrite split_strip.
    split; [reflexivity | split; [apply split_words | apply split_blank]].
  - intros i image mask Himage Hmask Hi.
    rewrite list_lookup_fmap, Hi. cbn. rewrite split_strip.
    change (image +:+ " " +:+ mask +:+ nl)
      with (image +:+ String (Ascii.ascii_of_nat 32) (mask +:+ nl)).
    rewrite split_word_then_space by (exact Himage || reflexivity).
    unfold nl. rewrite split_word_then_space by (exact Hmask || reflexivity).
    reflexivity.
Qed.

Lemma list_getitem_inl {A : Type} (l : list A) (idx : Z) (e : datasets_PASCAL.Error) :
  datasets_PASCAL.list_getitem l idx = inl e ->
  e = datasets_PASCAL.IndexError /\
  (idx < - Z.of_nat (length l) \/ Z.of_nat (length l) <= idx)%Z.
Proof.
  unfold datasets_PASCAL.list_getitem.
  destruct (Z.ltb_spec idx 0) as [Hneg | Hpos].
  - destruct (Z.ltb_spec (idx + Z.of_nat (length l)) 0) as [H | H].
    + intros [= <-]. split; [reflexivity | lia].
    + destruct (l !! Z.to_nat (idx + Z.of_nat (length l))) eqn:E; [discriminate |].
      apply lookup_ge_None in E. lia.
  - destruct (Z.ltb_spec idx 0) as [H | H]; [lia |].
    destruct (l !! Z.to_nat idx) eqn:E; [discriminate |].
    intros [= <-]. apply lookup_ge_None in E. split; [reflexivity | lia].
Qed.

Lemma list_getitem_inr {A : Type} (l : list A) (idx : Z) (x : A) :
  datasets_PASCAL.list_getitem l idx = inr x ->
  (- Z.of_nat (length l) <= idx < Z.of_nat (length l))%Z /\
  l !! Z.to_nat (idx mod Z.of_nat (length l)) = Some x.
Proof.
  unfold datasets_PASCAL.list_getitem.
  destruct (Z.ltb_spec idx 0) as [Hneg | Hpos].
  - destruct (Z.ltb_spec (idx + Z.of_nat (length l)) 0) as [H | H]; [discriminate |].
    destruct (l !! Z.to_nat (idx + Z.of_nat (length l))) eqn:E; [| discriminate].
    intros [= <-]. split; [lia |].
    replace (idx mod Z.of_nat (length l))%Z with (idx + Z.of_nat (length l))%Z;
      [exact E |].
    apply Z.mod_unique with (q := (-1)%Z); lia.
  - destruct (Z.ltb_spec idx 0) as [H | H]; [lia |].
    destruct (l !! Z.to_nat idx) eqn:E; [| discriminate].
    intros [= <-]. apply lookup_lt_Some in E as Hlt. split; [lia |].
    rewrite Z.mod_small by lia. exact E.
Qed.

(** [__getitem__] never returns an item.  It raises [IndexError] when the
    index is outside [-len, len) or its line is blank; for every other index
    it raises [cv2.error], whether the image file can be read or not: the
    image is read with [IMREAD_GRAYSCALE], which gives one channel, and
    handed to [cvtColor(..., COLOR_BGR2RGB)], which takes three or four. *)
Theorem getitem_always_raises (readable : string -> bool)
    (self : datasets_PASCAL.PascalVOCDataset) (idx : Z) :
  let len := datasets_PASCAL.__len__ self in
  exists e,
    datasets_PASCAL.__getitem__ readable self idx = inl e /\
    (e = datasets_PASCAL.IndexError
     <-> (idx < - len \/ len <= idx)%Z \/
         datasets_PASCAL.image_mask_pairs self !! Z.to_nat (idx mod len) = Some []) /\
    (e = datasets_PASCAL.cv2_error
     <-> exists name fields,
           (- len <= idx < len)%Z /\
           datasets_PASCAL.image_mask_pairs self !! Z.to_nat (idx mod len)
           = Some (name :: fields)).
Proof.
  intros len. unfold datasets_PASCAL.__getitem__, datasets_PASCAL.and_then.
  unfold len, datasets_PASCAL.__len__.
  destruct (datasets_PASCAL.list_getitem (datasets_PASCAL.image_mask_pairs self) idx)
    as [e | pair] eqn:E.
  - apply list_getitem_inl in E as [-> Hout].
    eexists. split; [reflexivity |]. split.
    + split; [auto | reflexivity].
    + split; [discriminate |]. intros (? & ? & ? & _). lia.
  - apply list_getitem_inr in E as [Hin Hpair].
    destruct pair as [| name fields].
    + eexists. split; [reflexivity |]. split.
      * split; [auto | reflexivity].
      * split; [discriminate |]. intros (? & ? & _ & H). congruence.
    + change (datasets_PASCAL.list_getitem (name :: fields) 0) with
        (inr name : datasets_PASCAL.Error + string).
      cbv beta iota.
      assert (Hcv : datasets_PASCAL.cvtColor
                      (datasets_PASCAL.imread readable
                         (datasets_PASCAL.join (datasets_PASCAL.root_dir self) name)
                         true)
                    = inl datasets_PASCAL.cv2_error).
      { unfold datasets_PASCAL.imread. destruct (readable _); reflexivity. }
      rewrite Hcv. eexists. split; [reflexivity |]. split.
      * split; [discriminate |]. intros [? | H]; [lia | congruence].
      * split; [| reflexivity]. intros _. exists name, fields. auto.
Qed.

(** ** The copy of [validate] under [utils/] *)

(** The copy of [validate] under [utils/] and the one in [main-flod.py]
    return or raise on the same loaders: both raise [ZeroDivisionError] when
    the loader yields no sample and return otherwise, then with the same
    [val_loss] and with the model left in evaluation mode, [contrast] off and
    its parameters untouched.  The copy reports two metrics, the one in
    [main-flod.py] three. *)
Theorem utils_validate_agrees_with_validate {Hidden : Type} (O : Oracle Hidden)
    (miou_dice_of : Hidden -> Model -> list Batch -> Q * Q)
    (h : Hidden) (model : Model) (val_loader : list Batch) :
  match utils.validate O miou_dice_of h model val_loader,
        validate O h model val_loader with
  | Ok r', Ok r =>
      concat val_loader <> [] /\
      r'.2.1.1 = r.2.1 /\ r'.1 = r.1 /\
      training r'.1 = false /\ contrast r'.1 = false /\ params r'.1 = params model
  | Raise e', Raise e =>
      concat val_loader = [] /\ e' = ZeroDivisionError /\ e = ZeroDivisionError
  | _, _ => False
  end.
Proof.
  destruct (validate O h model val_loader) as [r | e] eqn:E.
  - pose proof (validate_inv O _ _ _ _ E) as Hne.
    unfold utils.validate. unfold validate in E.
    destruct (py_truediv _ _) as [val_loss | e0]; [| discriminate].
    cbn in E. injection E as <-. cbn. split; [exact Hne | repeat split].
  - pose proof (validate_error O _ _ _ _ E) as ->.
    unfold utils.validate. unfold validate in E.
    destruct (py_truediv _ _) as [val_loss | e0] eqn:Ed; [discriminate |].
    cbn. split; [| split; [eapply py_truediv_error; exact Ed | reflexivity]].
    destruct (concat val_loader) eqn:Ec; [reflexivity |].
    destruct (validate_ok O h model val_loader) as [r Hr]; [congruence |].
    unfold validate in Hr. rewrite Ed in Hr. discriminate Hr.
Qed.

(** ** How a run of [main] ends *)


Section Outcomes.
Context {Hidden : Type} (O : Oracle Hidden).




End Outcomes.
